(** * clewcrew-agents: the expert agents, embedded and verified

    A shallow embedding of [clewcrew_agents]: [base_expert.py],
    [security_expert.py] and the five experts that probe a project for
    existing artifacts ([architecture_expert.py], [build_expert.py],
    [code_quality_expert.py], [mcp_expert.py], [model_expert.py]).

    Conventions of the embedding.
    - A finding is a Python [dict]: a finite map from string keys to
      values ([gmap string value]).
    - Scores ([confidence], the risk score) are Python floats in the
      source.  They are embedded as exact rationals [Q]: every constant of
      the source is a decimal with one fractional digit and is read as that
      decimal.  Bounds and comparisons of scores are proved on this
      reading, which rounding to nearest preserves.  The values themselves
      are those of IEEE-754 doubles: [Module binary64] embeds
      [calculate_confidence] once more with the arithmetic of the
      interpreter, and the values of the confidence are proved there.
    - The file system below [project_path] is a tree of directories and
      files; a file that cannot be read (or decoded) has no content.  What
      [pathlib] does on such a tree is written out in [Module pathlib].
      The operating system answers every probe of the model: the
      [OSError] it raises on a name beyond its limits or below a
      directory that cannot be searched, which no expert catches, is not
      part of it, and a component [..] is looked up as a name.  A
      statement that depends on the probes being answered says so in a
      hypothesis ([accepted]).
    - Text is a [string] of one-byte characters (ASCII text).  [int()] is
      embedded for the strings of digits it accepts; a statement about the
      fields it reads is made for lines within its limit ([plain_line]).
    - [async] methods are embedded as the functions they compute; calls to
      [self.logger.warning] leave no trace in the results and are omitted. *)

From Stdlib Require Import Ascii QArith Lqa Floats.
From stdpp Require Import base list strings gmap.

Set Warnings "-register-all,-inexact-float".
Local Open Scope string_scope.
Local Open Scope list_scope.

(** ** Python values *)

Inductive value :=
  | VNone
  | VBool (b : bool)
  | VInt (n : Z)
  | VFloat (q : Q)
  | VStr (s : string)
  | VList (l : list value)
  | VDict (d : gmap string value).

(** [dict[str, Any]] *)
Abbreviation dict := (gmap string value).

(** What the interpreter supplies and the agents only call: [json.load] on
    the text of a file ([None] when it raises) and the formatting of a value
    inside an f-string. *)
Class Builtins := {
  json_load : string -> option value;
  format_value : value -> string;
}.

(** Exceptions that reach the caller of an agent. *)
Inductive exn := KeyError (key : string).

Inductive result (A : Type) :=
  | Ok (a : A)
  | Raise (e : exn).
Arguments Ok {A} a.
Arguments Raise {A} e.

#[global] Instance result_ret : MRet result := fun A a => Ok a.

#[global] Instance result_bind : MBind result := fun A B k m =>
  match m with
  | Ok a => k a
  | Raise e => Raise e
  end.

Module py.

(** [d.get(key) == s] for a string literal [s] *)
Definition get_eq (d : dict) (key s : string) : bool :=
  match d !! key with
  | Some (VStr t) => String.eqb t s
  | _ => false
  end.

(** [d.get(key, default)] *)
Definition get_default (d : dict) (key : string) (default : value) : value :=
  match d !! key with
  | Some v => v
  | None => default
  end.

(** [d[key]] *)
Definition getitem (d : dict) (key : string) : result value :=
  match d !! key with
  | Some v => Ok v
  | None => Raise (KeyError key)
  end.

(** [v == s] for a string literal [s] *)
Definition eq_str (v : value) (s : string) : bool :=
  match v with
  | VStr t => String.eqb t s
  | _ => false
  end.

(** [len(l)] *)
Definition len {A} (l : list A) : Z := Z.of_nat (length l).

Definition Qltb (a b : Q) : bool := negb (Qle_bool b a).

(** [min(a, b)]: the first argument unless the second is smaller *)
Definition min (a b : Q) : Q := if Qltb b a then b else a.

(** [max(a, b)]: the first argument unless the second is larger *)
Definition max (a b : Q) : Q := if Qltb a b then b else a.

Definition code (c : ascii) : nat := nat_of_ascii c.

Definition between (lo hi : nat) (c : ascii) : bool :=
  (lo <=? code c)%nat && (code c <=? hi)%nat.

Definition is_digit (c : ascii) : bool := between 48 57 c.
Definition is_upper (c : ascii) : bool := between 65 90 c.
Definition is_lower (c : ascii) : bool := between 97 122 c.

(** [c.isspace()] on ASCII: tab, LF, VT, FF, CR, FS, GS, RS, US, space *)
Definition is_space (c : ascii) : bool :=
  between 9 13 c || between 28 32 c.

Definition lower_char (c : ascii) : ascii :=
  if is_upper c then ascii_of_nat (code c + 32) else c.

(** [s.lower()] *)
Fixpoint lower (s : string) : string :=
  match s with
  | EmptyString => EmptyString
  | String c s' => String (lower_char c) (lower s')
  end.

(** [needle in s] *)
Fixpoint contains (needle s : string) : bool :=
  String.prefix needle s ||
  match s with
  | EmptyString => false
  | String _ s' => contains needle s'
  end.

(** [s.split(sep)] for a one-character separator *)
Fixpoint split (sep : ascii) (s : string) : list string :=
  match s with
  | EmptyString => [EmptyString]
  | String c s' =>
      if Ascii.eqb c sep then EmptyString :: split sep s'
      else match split sep s' with
           | l :: ls => String c l :: ls
           | [] => [String c EmptyString]
           end
  end.

(** [sep.join(l)] *)
Fixpoint join (sep : string) (l : list string) : string :=
  match l with
  | [] => EmptyString
  | [s] => s
  | s :: l' => s +:+ sep +:+ join sep l'
  end.

Fixpoint lstrip (s : string) : string :=
  match s with
  | EmptyString => EmptyString
  | String c s' => if is_space c then lstrip s' else s
  end.

Fixpoint rstrip (s : string) : string :=
  match s with
  | EmptyString => EmptyString
  | String c s' =>
      match rstrip s' with
      | EmptyString => if is_space c then EmptyString else String c EmptyString
      | r => String c r
      end
  end.

(** [s.strip()] *)
Definition strip (s : string) : string := rstrip (lstrip s).

(** [s.split()]: the maximal runs of characters that are not white space *)
Fixpoint split_ws_aux (cur : option string) (s : string) : list string :=
  match s with
  | EmptyString => match cur with Some w => [w] | None => [] end
  | String c s' =>
      if is_space c
      then match cur with
           | Some w => w :: split_ws_aux None s'
           | None => split_ws_aux None s'
           end
      else split_ws_aux (Some (default EmptyString cur +:+ String c EmptyString)) s'
  end.

Definition split_ws (s : string) : list string := split_ws_aux None s.

(** [s.isdigit()] *)
Fixpoint all_digits (s : string) : bool :=
  match s with
  | EmptyString => true
  | String c s' => is_digit c && all_digits s'
  end.

Definition isdigit (s : string) : bool :=
  match s with
  | EmptyString => false
  | _ => all_digits s
  end.

(** [int(s)] for a string of decimal digits *)
Fixpoint int_of_digits_from (acc : Z) (s : string) : Z :=
  match s with
  | EmptyString => acc
  | String c s' => int_of_digits_from (10 * acc + Z.of_nat (code c - 48)) s'
  end.

Definition int_of_digits (s : string) : Z := int_of_digits_from 0 s.

(** the lines [for line in f] yields: each keeps its newline *)
Fixpoint file_lines (s : string) : list string :=
  match s with
  | EmptyString => []
  | String c s' =>
      if Ascii.eqb c "010"%char
      then String c EmptyString :: file_lines s'
      else match file_lines s' with
           | l :: ls => String c l :: ls
           | [] => [String c EmptyString]
           end
  end.

End py.

(** ** [pathlib] on a tree of files *)

Module pathlib.

Inductive node :=
  | File (content : option string)
  | Dir (entries : list (string * node)).

(** The file system: the tree below [/] and the working directory that
    relative paths start from.  The names in one directory are distinct. *)
Record FileSystem := {
  root : node;
  cwd : list string;
}.

(** A pure POSIX path: whether it starts at [/], and its components. *)
Record Path := {
  anchor : bool;
  parts : list string;
}.

(** [str(p)] *)
Definition str (p : Path) : string :=
  if anchor p then "/" +:+ py.join "/" (parts p)
  else match parts p with
       | [] => "."
       | _ => py.join "/" (parts p)
       end.

(** The components a relative string such as ["docs/"] or
    [".github/workflows/"] adds to a path. *)
Definition segments (s : string) : list string :=
  List.filter (fun c => negb (String.eqb c "" || String.eqb c "."))
              (py.split "/" s).

Definition child (p : Path) (rel : list string) : Path :=
  {| anchor := anchor p; parts := parts p ++ rel |}.

(** [p / s] for a relative [s] *)
Definition truediv (p : Path) (s : string) : Path := child p (segments s).

(** [p.parent] *)
Definition parent (p : Path) : Path :=
  {| anchor := anchor p; parts := removelast (parts p) |}.

(** [p.name] *)
Definition name (p : Path) : string := List.last (parts p) "".

Fixpoint rfind (c : ascii) (s : string) : option nat :=
  match s with
  | EmptyString => None
  | String d s' =>
      match rfind c s' with
      | Some i => Some (S i)
      | None => if Ascii.eqb d c then Some 0%nat else None
      end
  end.

(** [p.suffix]: from the last dot of the name, unless the name starts or
    ends with it *)
Definition suffix (p : Path) : string :=
  let name := name p in
  match rfind "." name with
  | Some i =>
      if (0 <? i)%nat && (i <? String.length name - 1)%nat
      then String.substring i (String.length name - i) name
      else ""
  | None => ""
  end.

Fixpoint entry (c : string) (es : list (string * node)) : option node :=
  match es with
  | [] => None
  | (n, x) :: es' => if String.eqb n c then Some x else entry c es'
  end.

Fixpoint lookup_from (n : node) (rel : list string) : option node :=
  match rel with
  | [] => Some n
  | c :: rest =>
      match n with
      | Dir es =>
          match entry c es with
          | Some x => lookup_from x rest
          | None => None
          end
      | File _ => None
      end
  end.

Definition resolve (fs : FileSystem) (p : Path) : option node :=
  lookup_from (root fs) (if anchor p then parts p else cwd fs ++ parts p).

(** [p.exists()] *)
Definition exists_ (fs : FileSystem) (p : Path) : bool :=
  match resolve fs p with
  | Some _ => true
  | None => false
  end.

(** [p.is_dir()] *)
Definition is_dir (fs : FileSystem) (p : Path) : bool :=
  match resolve fs p with
  | Some (Dir _) => true
  | _ => false
  end.

(** [p.read_text()], [open(p).read()]: [None] when it raises (no such
    file, a directory, a file that cannot be read or decoded) *)
Definition read_text (fs : FileSystem) (p : Path) : option string :=
  match resolve fs p with
  | Some (File content) => content
  | _ => None
  end.

(** [fnmatch] for patterns made of literal characters and [*] *)
Fixpoint fnmatch (pattern : string) (name : string) : bool :=
  match pattern with
  | EmptyString =>
      match name with
      | EmptyString => true
      | _ => false
      end
  | String c pattern' =>
      if Ascii.eqb c "*"
      then (fix star (name : string) : bool :=
              fnmatch pattern' name ||
              match name with
              | EmptyString => false
              | String _ name' => star name'
              end) name
      else match name with
           | String d name' => Ascii.eqb c d && fnmatch pattern' name'
           | EmptyString => false
           end
  end.

(** The entries below a directory whose name matches [pattern], as
    components relative to it: those of the directory itself first, then
    those of each of its subdirectories in turn. *)
Fixpoint walk (pattern : string) (prefix : list string) (n : node)
  : list (list string) :=
  match n with
  | File _ => []
  | Dir es =>
      flat_map (fun e : string * node =>
                  if fnmatch pattern (fst e) then [prefix ++ [fst e]] else []) es
      ++ flat_map (fun e : string * node =>
                     match snd e with
                     | Dir _ => walk pattern (prefix ++ [fst e]) (snd e)
                     | File _ => []
                     end) es
  end.

(** [p.rglob(pattern)]: nothing when [p] is not a directory *)
Definition rglob (fs : FileSystem) (p : Path) (pattern : string) : list Path :=
  match resolve fs p with
  | Some (Dir es) => map (child p) (walk pattern [] (Dir es))
  | _ => []
  end.

End pathlib.

(** ** [re.search] for the patterns of the security expert

    The patterns are literal characters, the escaped dot and the class
    [[a-zA-Z0-9]] repeated a fixed number of times. *)

Module re.

Inductive atom :=
  | Lit (c : ascii)
  | Alnum (n : nat).

Definition is_special (c : ascii) : bool :=
  existsb (Ascii.eqb c)
          ["."; "^"; "$"; "*"; "+"; "?"; "{"; "}"; "["; "]"; "\"; "|"; "("; ")"]%char.

Fixpoint read_nat (acc : nat) (s : string) : nat * string :=
  match s with
  | String c s' =>
      if py.is_digit c then read_nat (10 * acc + (py.code c - 48)) s' else (acc, s)
  | EmptyString => (acc, s)
  end.

Definition strip_prefix (p s : string) : option string :=
  if String.prefix p s
  then Some (String.substring (String.length p) (String.length s - String.length p) s)
  else None.

(** [re.compile] on that fragment; [None] outside of it *)
Fixpoint compile_fuel (fuel : nat) (s : string) : option (list atom) :=
  match fuel with
  | O => None
  | S fuel' =>
      match s with
      | EmptyString => Some []
      | String c s' =>
          if Ascii.eqb c "\"
          then match s' with
               | String d s'' =>
                   if is_special d
                   then cons (Lit d) <$> compile_fuel fuel' s''
                   else None
               | EmptyString => None
               end
          else if Ascii.eqb c "["
          then match strip_prefix "a-zA-Z0-9]{" s' with
               | Some s'' =>
                   match s'' with
                   | String d _ =>
                       if py.is_digit d
                       then let (n, rest) := read_nat 0 s'' in
                            match rest with
                            | String "}" rest' => cons (Alnum n) <$> compile_fuel fuel' rest'
                            | _ => None
                            end
                       else None
                   | EmptyString => None
                   end
               | None => None
               end
          else if is_special c then None
          else cons (Lit c) <$> compile_fuel fuel' s'
      end
  end.

Definition compile (pattern : string) : option (list atom) :=
  compile_fuel (S (String.length pattern)) pattern.

Definition is_alnum (c : ascii) : bool :=
  py.is_lower c || py.is_upper c || py.is_digit c.

(** [n] characters of the class, then the rest of the text *)
Fixpoint match_alnum (n : nat) (s : string) : option string :=
  match n with
  | O => Some s
  | S n' =>
      match s with
      | String c s' => if is_alnum c then match_alnum n' s' else None
      | EmptyString => None
      end
  end.

(** a match that starts at the first character of [s] *)
Fixpoint match_here (r : list atom) (s : string) : bool :=
  match r with
  | [] => true
  | Lit c :: r' =>
      match s with
      | String d s' => Ascii.eqb c d && match_here r' s'
      | EmptyString => false
      end
  | Alnum n :: r' =>
      match match_alnum n s with
      | Some s' => match_here r' s'
      | None => false
      end
  end.

(** a match that starts anywhere in [s] *)
Fixpoint search_atoms (r : list atom) (s : string) : bool :=
  match_here r s ||
  match s with
  | EmptyString => false
  | String _ s' => search_atoms r s'
  end.

(** [re.search(pattern, s)] is a match *)
Definition search (pattern : string) (s : string) : bool :=
  match compile pattern with
  | Some r => search_atoms r s
  | None => false
  end.

End re.

Import pathlib.

(** ** [base_expert.py] *)

Record HallucinationResult := {
  hallucinations : list dict;
  confidence : Q;
  recommendations : list string;
}.

Module BaseExpert.

Definition validate_findings (findings : list dict) : dict :=
  list_to_map [("validated", VBool true);
               ("confidence", VFloat 0.8);
               ("findings_count", VInt (py.len findings))].

Definition execute_recovery (issues : list dict) : dict :=
  list_to_map [("recovery_attempted", VBool true);
               ("issues_processed", VInt (py.len issues));
               ("success_count", VInt 0)].

Definition calculate_confidence (findings : list dict) : Q :=
  match findings with
  | [] => 0.9
  | _ =>
      let base_confidence := 0.8 in
      let high_priority :=
        py.len (List.filter (fun f => py.get_eq f "priority" "high") findings) in
      let critical_priority :=
        py.len (List.filter (fun f => py.get_eq f "priority" "critical") findings) in
      let confidence :=
        base_confidence - (inject_Z high_priority * 0.1)
                        - (inject_Z critical_priority * 0.2) in
      py.max 0.0 (py.min 1.0 confidence)
  end%Q.

End BaseExpert.

(** ** The confidence in binary64 *)

(** [BaseExpert.calculate_confidence] once more, with the arithmetic of the
    interpreter: the scores are IEEE-754 doubles, each literal the double
    nearest to it and each operation rounded to nearest. *)
Module binary64.

(** [float(n)] for the length of a list *)
Definition of_int (n : Z) : float := PrimFloat.of_uint63 (Uint63.of_Z n).

(** [min(a, b)]: the first argument unless the second is smaller *)
Definition min (a b : float) : float := if PrimFloat.ltb b a then b else a.

(** [max(a, b)]: the first argument unless the second is larger *)
Definition max (a b : float) : float := if PrimFloat.ltb a b then b else a.

Definition calculate_confidence (findings : list dict) : float :=
  match findings with
  | [] => 0.9
  | _ =>
      let base_confidence := 0.8 in
      let high_priority :=
        py.len (List.filter (fun f => py.get_eq f "priority" "high") findings) in
      let critical_priority :=
        py.len (List.filter (fun f => py.get_eq f "priority" "critical") findings) in
      let confidence :=
        base_confidence - (of_int high_priority * 0.1)
                        - (of_int critical_priority * 0.2) in
      max 0.0 (min 1.0 confidence)
  end%float.

End binary64.

(** ** [security_expert.py] *)

Module SecurityExpert.

Definition credential_patterns : list string :=
  ["sk-[a-zA-Z0-9]{48}";
   "pk_[a-zA-Z0-9]{48}";
   "AKIA[a-zA-Z0-9]{16}";
   "ghp_[a-zA-Z0-9]{36}";
   "gho_[a-zA-Z0-9]{36}"].

Definition subprocess_patterns : list string :=
  ["import subprocess";
   "subprocess\.run";
   "subprocess\.Popen";
   "subprocess\.call";
   "os\.system";
   "os\.popen"].

Fixpoint first_match_from (i : nat) (pattern : string) (lines : list string) : nat :=
  match lines with
  | [] => 0
  | line :: lines' =>
      if re.search pattern line then i
      else first_match_from (S i) pattern lines'
  end.

Definition _find_line_number (content pattern : string) : nat :=
  let lines := py.split "010" content in
  first_match_from 1 pattern lines.

(** the [dict] appended for a credential pattern *)
Definition credential_finding (py_file : Path) (content pattern : string) : dict :=
  list_to_map
    [("type", VStr "security_vulnerability");
     ("file", VStr (str py_file));
     ("pattern", VStr pattern);
     ("priority", VStr "high");
     ("description", VStr ("Potential hardcoded credential found: " +:+ pattern));
     ("line", VInt (Z.of_nat (_find_line_number content pattern)))].

(** the [dict] appended for a subprocess pattern *)
Definition subprocess_finding (py_file : Path) (content pattern : string) : dict :=
  list_to_map
    [("type", VStr "subprocess_vulnerability");
     ("file", VStr (str py_file));
     ("pattern", VStr pattern);
     ("priority", VStr "critical");
     ("description",
      VStr ("Subprocess usage detected: " +:+ pattern
            +:+ " - Security risk for command injection"));
     ("line", VInt (Z.of_nat (_find_line_number content pattern)))].

(** the body of the loop over the files, once [content] is read *)
Definition scan_content (py_file : Path) (content : string)
    (hallucinations : list dict) : list dict :=
  let hallucinations :=
    fold_left (fun hallucinations pattern =>
                 if re.search pattern content
                 then hallucinations ++ [credential_finding py_file content pattern]
                 else hallucinations)
              credential_patterns hallucinations in
  fold_left (fun hallucinations pattern =>
               if re.search pattern content
               then hallucinations ++ [subprocess_finding py_file content pattern]
               else hallucinations)
            subprocess_patterns hallucinations.

Definition detect_hallucinations (fs : FileSystem) (project_path : Path)
  : HallucinationResult :=
  let hallucinations :=
    fold_left (fun hallucinations py_file =>
                 match read_text fs py_file with
                 | Some content => scan_content py_file content hallucinations
                 | None => hallucinations
                 end)
              (rglob fs project_path "*.py") [] in
  let recommendations :=
    match hallucinations with
    | _ :: _ =>
        ["Use environment variables for credentials";
         "Implement secret management";
         "Replace subprocess calls with native Python operations";
         "Use Go/Rust for performance-critical shell operations";
         "Implement gRPC shell service for secure command execution"]
    | [] =>
        ["No security issues detected";
         "Continue monitoring for security vulnerabilities";
         "Implement automated security scanning in CI/CD"]
    end in
  let confidence := BaseExpert.calculate_confidence hallucinations in
  {| hallucinations := hallucinations;
     confidence := confidence;
     recommendations := recommendations |}.

Definition suggest_fixes `{Builtins} (issues : list dict) : result (list dict) :=
  fold_left (fun (acc : result (list dict)) issue =>
               fixes ← acc;
               type ← py.getitem issue "type";
               if py.eq_str type "security_vulnerability"
               then
                 pattern ← py.getitem issue "pattern";
                 mret (fixes ++
                   [list_to_map
                      [("issue", VDict issue);
                       ("fix", VStr "Replace hardcoded credential with environment variable");
                       ("example",
                        VStr ("# Replace: " +:+ format_value pattern
                              +:+ String "010" "# With: os.getenv('CREDENTIAL_KEY')"));
                       ("priority", VStr "high")]])
               else if py.eq_str type "subprocess_vulnerability"
               then
                 mret (fixes ++
                   [list_to_map
                      [("issue", VDict issue);
                       ("fix", VStr "Replace subprocess call with native Python operation");
                       ("example",
                        VStr "# Replace subprocess.call with native Python libraries");
                       ("priority", VStr "critical")]])
               else mret fixes)
            issues (mret []).

Definition calculate_risk_score (issues : list dict) : Q :=
  match issues with
  | [] => 0.0
  | _ =>
      let total_score :=
        fold_left (fun total_score issue =>
                     if py.get_eq issue "priority" "critical" then total_score + 10.0
                     else if py.get_eq issue "priority" "high" then total_score + 5.0
                     else if py.get_eq issue "priority" "medium" then total_score + 2.0
                     else total_score + 1.0)
                  issues 0.0 in
      py.min 10.0 total_score
  end%Q.

End SecurityExpert.

#[global] Instance Path_eq_dec : EqDecision Path.
Proof. solve_decision. Defined.

(** [files.append(p)] for each name of [names] that exists below
    [project_path], in order *)
Definition append_existing (fs : FileSystem) (project_path : Path)
    (names : list string) (files : list Path) : list Path :=
  fold_left (fun files name =>
               let file_path := truediv project_path name in
               if exists_ fs file_path then files ++ [file_path] else files)
            names files.

(** the [dict] the existence-probing experts append for an issue *)
Definition issue_dict (type : string) (file : Path)
    (description priority tool source : string) : dict :=
  list_to_map
    [("type", VStr type);
     ("file", VStr (str file));
     ("description", VStr description);
     ("priority", VStr priority);
     ("tool", VStr tool);
     ("source", VStr source)].

(** [for issue in issues: fixes.append(d)], where [rule issue] builds the
    [dict] to append for [issue], if there is one; an exception raised
    while it is built ends the loop and reaches the caller *)
Definition append_fixes (rule : dict -> result (option dict)) (issues : list dict)
  : result (list dict) :=
  fold_left (fun (acc : result (list dict)) issue =>
               fixes ← acc;
               fx ← rule issue;
               mret (match fx with
                     | Some d => fixes ++ [d]
                     | None => fixes
                     end))
            issues (mret []).

(** the [dict] the existence-probing experts append for a fix *)
Definition fix_dict (issue : dict) (fx : string) (description priority : value)
    (source : string) : dict :=
  list_to_map
    [("issue", VDict issue);
     ("fix", VStr fx);
     ("description", description);
     ("priority", priority);
     ("source", VStr source)].

(** ** [build_expert.py] *)

Module BuildExpert.

Definition _find_existing_build_data (fs : FileSystem) (project_path : Path)
  : list Path :=
  let build_files := [] in
  let config_files :=
    ["pyproject.toml"; "setup.py"; "setup.cfg"; "build.py";
     "Makefile"; "dockerfile"; "Dockerfile"] in
  let build_files := append_existing fs project_path config_files build_files in
  let output_dirs := ["build/"; "dist/"; "*.egg-info/"; "target/"] in
  append_existing fs project_path output_dirs build_files.

Definition _analyze_build_config (fs : FileSystem) (project_path : Path)
  : list dict :=
  let issues := [] in
  let pyproject_file := truediv project_path "pyproject.toml" in
  if exists_ fs pyproject_file
  then match read_text fs pyproject_file with
       | Some content =>
           if negb (py.contains "build-system" content)
           then issues ++
                [issue_dict "build_config_issue" pyproject_file
                   "Missing build-system configuration"
                   "medium" "build_config" "existing_config"]
           else issues
       | None => issues
       end
  else issues.

Definition _analyze_build_logs (fs : FileSystem) (project_path : Path)
  : list dict :=
  let log_files := ["build.log"; "make.log"; "docker.log"] in
  fold_left (fun issues log_file =>
               let log_path := truediv project_path log_file in
               if exists_ fs log_path
               then match read_text fs log_path with
                    | Some content =>
                        if py.contains "error" (py.lower content)
                           || py.contains "failed" (py.lower content)
                        then issues ++
                             [issue_dict "build_failure" log_path
                                "Build log contains error or failure messages"
                                "high" "build_logs" "existing_logs"]
                        else issues
                    | None => issues
                    end
               else issues)
            log_files [].

Definition detect_hallucinations (fs : FileSystem) (project_path : Path)
  : HallucinationResult :=
  let hallucinations := [] in
  let build_data := _find_existing_build_data fs project_path in
  match build_data with
  | [] =>
      let recommendations :=
        ["No existing build configuration found";
         "Consider setting up proper build tools (poetry, pip, etc.)";
         "Implement automated build pipelines";
         "Set up build artifact management"] in
      {| hallucinations := [];
         confidence := 0.3;
         recommendations := recommendations |}
  | _ :: _ =>
      let config_issues := _analyze_build_config fs project_path in
      let hallucinations := hallucinations ++ config_issues in
      let log_issues := _analyze_build_logs fs project_path in
      let hallucinations := hallucinations ++ log_issues in
      let recommendations :=
        match hallucinations with
        | _ :: _ =>
            ["Review and fix build configuration issues";
             "Address build failures identified in logs";
             "Improve build automation and pipelines";
             "Consider implementing build caching strategies"]
        | [] =>
            ["Build configuration appears sound based on existing files";
             "Continue monitoring build performance";
             "Consider implementing advanced build strategies";
             "Add build metrics and monitoring"]
        end in
      let confidence := BaseExpert.calculate_confidence hallucinations in
      {| hallucinations := hallucinations;
         confidence := confidence;
         recommendations := recommendations |}
  end.

Definition suggest_fixes (issues : list dict) : result (list dict) :=
  append_fixes
    (fun issue =>
       type ← py.getitem issue "type";
       if py.eq_str type "build_config_issue"
       then
         description ← py.getitem issue "description";
         priority ← py.getitem issue "priority";
         mret (Some (fix_dict issue "Fix build configuration"
                       description priority "existing_config"))
       else if py.eq_str type "build_failure"
       then
         priority ← py.getitem issue "priority";
         mret (Some (fix_dict issue "Fix build failures"
                       (VStr "Review and fix the build failures identified in logs")
                       priority "existing_logs"))
       else mret None)
    issues.

End BuildExpert.

(** ** [mcp_expert.py] *)

Module MCPExpert.

Definition _find_existing_mcp_data (fs : FileSystem) (project_path : Path)
  : list Path :=
  let mcp_files := [] in
  let config_files :=
    ["mcp_config.json"; "mcp.yaml"; "mcp.toml";
     ".mcp"; "mcp_server.json"; "mcp_client.json"] in
  let mcp_files := append_existing fs project_path config_files mcp_files in
  let log_dirs := ["logs/"; "mcp_logs/"; ".mcp_logs/"] in
  append_existing fs project_path log_dirs mcp_files.

Definition _analyze_mcp_config (fs : FileSystem) (project_path : Path)
  : list dict :=
  let config_files :=
    [truediv project_path "mcp_config.json"; truediv project_path "mcp.yaml"] in
  fold_left (fun issues config_file =>
               if exists_ fs config_file
               then match read_text fs config_file with
                    | Some content =>
                        if py.contains "mcp" (py.lower content)
                        then if negb (py.contains "server" content)
                                && negb (py.contains "client" content)
                             then issues ++
                                  [issue_dict "mcp_config_issue" config_file
                                     "MCP configuration missing server/client specification"
                                     "medium" "mcp_config" "existing_config"]
                             else issues
                        else issues
                    | None => issues
                    end
               else issues)
            config_files [].

Definition _analyze_mcp_logs (fs : FileSystem) (project_path : Path)
  : list dict :=
  let log_files := ["mcp.log"; "mcp_server.log"; "mcp_client.log"] in
  fold_left (fun issues log_file =>
               let log_path := truediv project_path log_file in
               if exists_ fs log_path
               then match read_text fs log_path with
                    | Some content =>
                        if py.contains "error" (py.lower content)
                           || py.contains "failed" (py.lower content)
                        then issues ++
                             [issue_dict "mcp_failure" log_path
                                "MCP log contains error or failure messages"
                                "high" "mcp_logs" "existing_logs"]
                        else issues
                    | None => issues
                    end
               else issues)
            log_files [].

Definition detect_hallucinations (fs : FileSystem) (project_path : Path)
  : HallucinationResult :=
  let hallucinations := [] in
  let mcp_data := _find_existing_mcp_data fs project_path in
  match mcp_data with
  | [] =>
      let recommendations :=
        ["No existing MCP configuration found";
         "Consider setting up MCP server configuration";
         "Implement MCP client integration";
         "Set up MCP logging and monitoring"] in
      {| hallucinations := [];
         confidence := 0.3;
         recommendations := recommendations |}
  | _ :: _ =>
      let config_issues := _analyze_mcp_config fs project_path in
      let hallucinations := hallucinations ++ config_issues in
      let log_issues := _analyze_mcp_logs fs project_path in
      let hallucinations := hallucinations ++ log_issues in
      let recommendations :=
        match hallucinations with
        | _ :: _ =>
            ["Review and fix MCP configuration issues";
             "Address MCP connection issues identified in logs";
             "Improve MCP error handling and logging";
             "Consider implementing MCP health checks"]
        | [] =>
            ["MCP configuration appears sound based on existing files";
             "Continue monitoring MCP performance";
             "Consider implementing advanced MCP strategies";
             "Add comprehensive MCP monitoring and alerting"]
        end in
      let confidence := BaseExpert.calculate_confidence hallucinations in
      {| hallucinations := hallucinations;
         confidence := confidence;
         recommendations := recommendations |}
  end.

Definition suggest_fixes (issues : list dict) : result (list dict) :=
  append_fixes
    (fun issue =>
       type ← py.getitem issue "type";
       if py.eq_str type "mcp_config_issue"
       then
         description ← py.getitem issue "description";
         priority ← py.getitem issue "priority";
         mret (Some (fix_dict issue "Fix MCP configuration"
                       description priority "existing_config"))
       else if py.eq_str type "mcp_failure"
       then
         priority ← py.getitem issue "priority";
         mret (Some (fix_dict issue "Fix MCP failures"
                       (VStr "Review and fix the MCP failures identified in logs")
                       priority "existing_logs"))
       else mret None)
    issues.

End MCPExpert.

(** ** [model_expert.py] *)

Module ModelExpert.

Definition _find_existing_model_data (fs : FileSystem) (project_path : Path)
  : list Path :=
  let model_files := [] in
  let config_files :=
    ["model_config.json"; "model.yaml"; "config.yaml";
     "hyperparameters.json"; "model_params.json"] in
  let model_files := append_existing fs project_path config_files model_files in
  let output_dirs := ["models/"; "checkpoints/"; "outputs/"; "results/"] in
  append_existing fs project_path output_dirs model_files.

Definition _analyze_model_config (fs : FileSystem) (project_path : Path)
  : list dict :=
  let config_files :=
    [truediv project_path "model_config.json"; truediv project_path "config.yaml"] in
  fold_left (fun issues config_file =>
               if exists_ fs config_file
               then match read_text fs config_file with
                    | Some content =>
                        if py.contains "model" (py.lower content)
                        then if negb (py.contains "version" content)
                             then issues ++
                                  [issue_dict "model_config_issue" config_file
                                     "Model configuration missing version information"
                                     "medium" "model_config" "existing_config"]
                             else issues
                        else issues
                    | None => issues
                    end
               else issues)
            config_files [].

Definition _analyze_model_outputs (fs : FileSystem) (project_path : Path)
  : list dict :=
  let output_files := ["model.log"; "training.log"; "evaluation.log"] in
  fold_left (fun issues output_file =>
               let log_path := truediv project_path output_file in
               if exists_ fs log_path
               then match read_text fs log_path with
                    | Some content =>
                        if py.contains "error" (py.lower content)
                           || py.contains "failed" (py.lower content)
                        then issues ++
                             [issue_dict "model_failure" log_path
                                "Model log contains error or failure messages"
                                "high" "model_logs" "existing_logs"]
                        else issues
                    | None => issues
                    end
               else issues)
            output_files [].

Definition detect_hallucinations (fs : FileSystem) (project_path : Path)
  : HallucinationResult :=
  let hallucinations := [] in
  let model_data := _find_existing_model_data fs project_path in
  match model_data with
  | [] =>
      let recommendations :=
        ["No existing model configuration found";
         "Consider documenting model architecture and parameters";
         "Implement model versioning and tracking";
         "Set up model performance monitoring"] in
      {| hallucinations := [];
         confidence := 0.3;
         recommendations := recommendations |}
  | _ :: _ =>
      let config_issues := _analyze_model_config fs project_path in
      let hallucinations := hallucinations ++ config_issues in
      let output_issues := _analyze_model_outputs fs project_path in
      let hallucinations := hallucinations ++ output_issues in
      let recommendations :=
        match hallucinations with
        | _ :: _ =>
            ["Review and fix model configuration issues";
             "Address model performance issues identified in outputs";
             "Improve model documentation and versioning";
             "Consider implementing model monitoring and alerting"]
        | [] =>
            ["Model configuration appears sound based on existing files";
             "Continue monitoring model performance";
             "Consider implementing advanced model strategies";
             "Add comprehensive model evaluation metrics"]
        end in
      let confidence := BaseExpert.calculate_confidence hallucinations in
      {| hallucinations := hallucinations;
         confidence := confidence;
         recommendations := recommendations |}
  end.

Definition suggest_fixes (issues : list dict) : result (list dict) :=
  append_fixes
    (fun issue =>
       type ← py.getitem issue "type";
       if py.eq_str type "model_config_issue"
       then
         description ← py.getitem issue "description";
         priority ← py.getitem issue "priority";
         mret (Some (fix_dict issue "Fix model configuration"
                       description priority "existing_config"))
       else if py.eq_str type "model_failure"
       then
         priority ← py.getitem issue "priority";
         mret (Some (fix_dict issue "Fix model failures"
                       (VStr "Review and fix the model failures identified in logs")
                       priority "existing_logs"))
       else mret None)
    issues.

End ModelExpert.


(** ** [architecture_expert.py] *)

Module ArchitectureExpert.

(** [files.extend(p.rglob(pattern))] for a directory [p], [files.append(p)]
    for another existing [p], for each name of [names] in order *)
Definition collect (fs : FileSystem) (project_path : Path) (pattern : string)
    (names : list string) (arch_files : list Path) : list Path :=
  fold_left (fun arch_files name =>
               let file_path := truediv project_path name in
               if exists_ fs file_path
               then if is_dir fs file_path
                    then arch_files ++ rglob fs file_path pattern
                    else arch_files ++ [file_path]
               else arch_files)
            names arch_files.

Definition _find_existing_architecture_data (fs : FileSystem) (project_path : Path)
  : list Path :=
  let arch_files := [] in
  let doc_files :=
    ["README.md"; "ARCHITECTURE.md"; "DESIGN.md"; "docs/";
     "adr/"; "decisions/"; "architecture/"; "design/"] in
  let arch_files := collect fs project_path "*.md" doc_files arch_files in
  let structure_files :=
    ["pyproject.toml"; "setup.py"; "requirements.txt";
     "src/"; "lib/"; "app/"; "core/"] in
  collect fs project_path "*.py" structure_files arch_files.

Definition _analyze_architecture_docs (fs : FileSystem) (project_path : Path)
  : list dict :=
  let issues := [] in
  let readme_file := truediv project_path "README.md" in
  let issues :=
    if exists_ fs readme_file
    then match read_text fs readme_file with
         | Some content =>
             if negb (py.contains "architecture" (py.lower content))
                && negb (py.contains "design" (py.lower content))
             then issues ++
                  [issue_dict "documentation_issue" readme_file
                     "README missing architecture/design section"
                     "medium" "documentation" "existing_docs"]
             else issues
         | None => issues
         end
    else issues in
  let docs_dir := truediv project_path "docs" in
  if exists_ fs docs_dir
  then
    let arch_docs := rglob fs docs_dir "*architecture*" in
    let arch_docs := arch_docs ++ rglob fs docs_dir "*design*" in
    match arch_docs with
    | [] => issues ++
            [issue_dict "documentation_issue" docs_dir
               "Docs directory missing architecture/design documentation"
               "medium" "documentation" "existing_docs"]
    | _ :: _ => issues
    end
  else issues.

Definition _analyze_code_structure (fs : FileSystem) (project_path : Path)
  : list dict :=
  let issues := [] in
  let src_dir := truediv project_path "src" in
  if exists_ fs src_dir
  then
    let py_files := rglob fs src_dir "*.py" in
    match py_files with
    | _ :: _ =>
        let init_files := rglob fs src_dir "__init__.py" in
        if (py.len init_files <? py.len (remove_dups (map parent py_files)))%Z
        then issues ++
             [issue_dict "structure_issue" src_dir
                "Some Python packages missing __init__.py files"
                "medium" "code_structure" "existing_structure"]
        else issues
    | [] => issues
    end
  else
    let py_files := rglob fs project_path "*.py" in
    if (10 <? py.len py_files)%Z
    then issues ++
         [issue_dict "structure_issue" project_path
            "Consider organizing code into src/ directory structure"
            "low" "code_structure" "existing_structure"]
    else issues.

Definition _analyze_dependencies (fs : FileSystem) (project_path : Path)
  : list dict :=
  let issues := [] in
  let pyproject_file := truediv project_path "pyproject.toml" in
  let issues :=
    if exists_ fs pyproject_file
    then match read_text fs pyproject_file with
         | Some content =>
             if py.contains "dependencies" content
             then if py.contains ">=" content && negb (py.contains "==" content)
                  then issues ++
                       [issue_dict "dependency_issue" pyproject_file
                          "Consider pinning dependency versions for reproducibility"
                          "medium" "dependency_management" "existing_config"]
                  else issues
             else issues
         | None => issues
         end
    else issues in
  let requirements_file := truediv project_path "requirements.txt" in
  if exists_ fs requirements_file
  then match read_text fs requirements_file with
       | Some content =>
           if py.contains ">=" content && negb (py.contains "==" content)
           then issues ++
                [issue_dict "dependency_issue" requirements_file
                   "Consider pinning dependency versions for reproducibility"
                   "medium" "dependency_management" "existing_config"]
           else issues
       | None => issues
       end
  else issues.

Definition detect_hallucinations (fs : FileSystem) (project_path : Path)
  : HallucinationResult :=
  let hallucinations := [] in
  let arch_data := _find_existing_architecture_data fs project_path in
  match arch_data with
  | [] =>
      let recommendations :=
        ["No existing architecture documentation found";
         "Consider creating architecture decision records (ADRs)";
         "Document system components and their relationships";
         "Create dependency diagrams and system maps"] in
      {| hallucinations := [];
         confidence := 0.3;
         recommendations := recommendations |}
  | _ :: _ =>
      let doc_issues := _analyze_architecture_docs fs project_path in
      let hallucinations := hallucinations ++ doc_issues in
      let structure_issues := _analyze_code_structure fs project_path in
      let hallucinations := hallucinations ++ structure_issues in
      let dependency_issues := _analyze_dependencies fs project_path in
      let hallucinations := hallucinations ++ dependency_issues in
      let recommendations :=
        match hallucinations with
        | _ :: _ =>
            ["Review and improve architecture documentation";
             "Address structural issues in code organization";
             "Update dependency management and versioning";
             "Consider implementing architectural patterns";
             "Document system boundaries and interfaces"]
        | [] =>
            ["Architecture appears well-documented based on existing files";
             "Continue monitoring architectural decisions";
             "Consider implementing advanced architectural patterns";
             "Add performance and scalability documentation"]
        end in
      let confidence := BaseExpert.calculate_confidence hallucinations in
      {| hallucinations := hallucinations;
         confidence := confidence;
         recommendations := recommendations |}
  end.

Definition suggest_fixes (issues : list dict) : result (list dict) :=
  append_fixes
    (fun issue =>
       type ← py.getitem issue "type";
       if py.eq_str type "documentation_issue"
       then
         description ← py.getitem issue "description";
         priority ← py.getitem issue "priority";
         mret (Some (fix_dict issue "Improve architecture documentation"
                       description priority "existing_docs"))
       else if py.eq_str type "structure_issue"
       then
         description ← py.getitem issue "description";
         priority ← py.getitem issue "priority";
         mret (Some (fix_dict issue "Improve code structure"
                       description priority "existing_structure"))
       else if py.eq_str type "dependency_issue"
       then
         description ← py.getitem issue "description";
         priority ← py.getitem issue "priority";
         mret (Some (fix_dict issue "Fix dependency management"
                       description priority "existing_config"))
       else mret None)
    issues.

End ArchitectureExpert.

(** ** [code_quality_expert.py] *)

Module CodeQualityExpert.

Definition _find_existing_tool_outputs (fs : FileSystem) (project_path : Path)
  : list Path :=
  let output_files := [] in
  let tool_outputs :=
    ["pyproject.toml"; ".ruff.toml"; "pytest.ini"; "setup.cfg"; ".flake8";
     "tox.ini"; "coverage.xml"; "htmlcov/"; "logs/"; ".github/workflows/";
     ".gitlab-ci.yml"] in
  let output_files := append_existing fs project_path tool_outputs output_files in
  let ci_dirs := [".github"; ".gitlab-ci"; ".circleci"; "ci"; "jenkins"] in
  fold_left (fun output_files ci_dir =>
               let ci_path := truediv project_path ci_dir in
               if exists_ fs ci_path
               then
                 let output_files := output_files ++ rglob fs ci_path "*.yml" in
                 let output_files := output_files ++ rglob fs ci_path "*.yaml" in
                 output_files ++ rglob fs ci_path "*.json"
               else output_files)
            ci_dirs output_files.

(** the [dict] appended for one entry of a flake8 JSON report *)
Definition flake8_json_issue (issue : dict) : dict :=
  list_to_map
    [("type", VStr "code_quality_issue");
     ("file", py.get_default issue "filename" (VStr "unknown"));
     ("line", py.get_default issue "line_number" (VInt 0));
     ("column", py.get_default issue "column_number" (VInt 0));
     ("code", py.get_default issue "code" (VStr ""));
     ("description", py.get_default issue "text" (VStr ""));
     ("priority", VStr "medium");
     ("tool", VStr "flake8");
     ("source", VStr "existing_output")].

(** [for issue in data: issues.append(...)] for a list [data]: the first
    entry that is no [dict] has no [get] and ends the loop with an
    exception; what was appended before stays. *)
Fixpoint flake8_json_issues (data : list value) (issues : list dict) : list dict :=
  match data with
  | VDict issue :: data' => flake8_json_issues data' (issues ++ [flake8_json_issue issue])
  | _ => issues
  end.

(** the [dict] appended for a line of a flake8 text report, split at its colons *)
Definition flake8_text_issue (parts : list string) : dict :=
  let part i := nth i parts "" in
  list_to_map
    [("type", VStr "code_quality_issue");
     ("file", VStr (part 0%nat));
     ("line", VInt (if py.isdigit (part 1%nat) then py.int_of_digits (part 1%nat) else 0));
     ("column", VInt (if py.isdigit (part 2%nat) then py.int_of_digits (part 2%nat) else 0));
     ("code", VStr (match py.split_ws (part 3%nat) with
                    | w :: _ => w
                    | [] => ""
                    end));
     ("description", VStr (py.strip (py.join ":" (drop 3 parts))));
     ("priority", VStr "medium");
     ("tool", VStr "flake8");
     ("source", VStr "existing_output")].

Definition _analyze_existing_flake8_outputs `{Builtins}
    (fs : FileSystem) (project_path : Path) : list dict :=
  let flake8_files :=
    [truediv project_path "flake8_report.json";
     truediv project_path "flake8_report.txt";
     truediv project_path ".flake8"] in
  fold_left (fun issues flake8_file =>
               if exists_ fs flake8_file
               then match read_text fs flake8_file with
                    | Some content =>
                        if String.eqb (suffix flake8_file) ".json"
                        then match json_load content with
                             | Some (VList data) => flake8_json_issues data issues
                             | _ => issues
                             end
                        else fold_left (fun issues line =>
                                          if py.contains ":" line
                                          then let parts := py.split ":" (py.strip line) in
                                               if (4 <=? py.len parts)%Z
                                               then issues ++ [flake8_text_issue parts]
                                               else issues
                                          else issues)
                                       (py.file_lines content) issues
                    | None => issues
                    end
               else issues)
            flake8_files [].

(** [issues.append(d)] for each file of [names] that exists, mentions
    [tool] in any case and holds one of the two [keys] *)
Definition config_issues (fs : FileSystem) (project_path : Path)
    (names : list string) (tool key1 key2 : string) (d : Path -> dict) : list dict :=
  fold_left (fun issues name =>
               let file := truediv project_path name in
               if exists_ fs file
               then match read_text fs file with
                    | Some content =>
                        if py.contains tool (py.lower content)
                        then if py.contains key1 content || py.contains key2 content
                             then issues ++ [d file]
                             else issues
                        else issues
                    | None => issues
                    end
               else issues)
            names [].

Definition _analyze_existing_black_outputs (fs : FileSystem) (project_path : Path)
  : list dict :=
  config_issues fs project_path ["black_report.txt"; "pyproject.toml"]
    "black" "line-length" "target-version"
    (fun black_file =>
       list_to_map
         [("type", VStr "formatting_config");
          ("file", VStr (str black_file));
          ("description", VStr "Black formatter configuration found");
          ("priority", VStr "low");
          ("tool", VStr "black");
          ("source", VStr "existing_config")]).

Definition _analyze_existing_mypy_outputs (fs : FileSystem) (project_path : Path)
  : list dict :=
  config_issues fs project_path ["mypy_report.txt"; "pyproject.toml"; "setup.cfg"]
    "mypy" "warn_return_any" "disallow_untyped_defs"
    (fun mypy_file =>
       list_to_map
         [("type", VStr "type_checking_config");
          ("file", VStr (str mypy_file));
          ("description", VStr "MyPy type checker configuration found");
          ("priority", VStr "low");
          ("tool", VStr "mypy");
          ("source", VStr "existing_config")]).

Definition _analyze_existing_ci_logs (fs : FileSystem) (project_path : Path)
  : list dict :=
  let ci_dirs := [".github"; ".gitlab-ci"; ".circleci"; "ci"; "jenkins"] in
  fold_left (fun issues ci_dir =>
               let ci_path := truediv project_path ci_dir in
               if exists_ fs ci_path
               then fold_left (fun issues config_file =>
                                 match read_text fs config_file with
                                 | Some content =>
                                     if py.contains "flake8" content
                                        || py.contains "black" content
                                        || py.contains "mypy" content
                                     then issues ++
                                          [issue_dict "ci_quality_integration" config_file
                                             "Quality tools integrated in CI/CD pipeline"
                                             "low" "ci_cd" "existing_config"]
                                     else issues
                                 | None => issues
                                 end)
                              (rglob fs ci_path "*.yml") issues
               else issues)
            ci_dirs [].

Definition detect_hallucinations `{Builtins} (fs : FileSystem) (project_path : Path)
  : HallucinationResult :=
  let hallucinations := [] in
  let tool_outputs := _find_existing_tool_outputs fs project_path in
  match tool_outputs with
  | [] =>
      let recommendations :=
        ["No existing code quality tool outputs found";
         "Consider running quality tools and saving outputs for analysis";
         "Set up CI/CD pipeline to capture tool outputs";
         "Use pre-commit hooks to generate quality reports"] in
      {| hallucinations := [];
         confidence := 0.5;
         recommendations := recommendations |}
  | _ :: _ =>
      let flake8_issues := _analyze_existing_flake8_outputs fs project_path in
      let hallucinations := hallucinations ++ flake8_issues in
      let black_issues := _analyze_existing_black_outputs fs project_path in
      let hallucinations := hallucinations ++ black_issues in
      let mypy_issues := _analyze_existing_mypy_outputs fs project_path in
      let hallucinations := hallucinations ++ mypy_issues in
      let ci_issues := _analyze_existing_ci_logs fs project_path in
      let hallucinations := hallucinations ++ ci_issues in
      let recommendations :=
        match hallucinations with
        | _ :: _ =>
            ["Address code quality issues found in existing tool outputs";
             "Review and fix flake8 violations";
             "Run black formatter to fix formatting issues";
             "Add proper type annotations based on mypy findings";
             "Consider implementing pre-commit hooks for automated quality checks";
             "Set up quality gates in CI/CD pipeline"]
        | [] =>
            ["Code quality checks passed based on existing tool outputs";
             "Continue monitoring with automated quality checks";
             "Consider adding more comprehensive quality analysis tools"]
        end in
      let confidence := BaseExpert.calculate_confidence hallucinations in
      {| hallucinations := hallucinations;
         confidence := confidence;
         recommendations := recommendations |}
  end.

Definition suggest_fixes `{Builtins} (issues : list dict) : result (list dict) :=
  append_fixes
    (fun issue =>
       type ← py.getitem issue "type";
       if py.eq_str type "code_quality_issue"
       then
         code ← py.getitem issue "code";
         description ← py.getitem issue "description";
         mret (Some (fix_dict issue "Fix code quality issue"
                       (VStr ("Address " +:+ format_value code +:+ ": "
                              +:+ format_value description))
                       (VStr "medium") "existing_tool_output"))
       else if py.eq_str type "formatting_config"
       then
         mret (Some (fix_dict issue "Configure Black formatter"
                       (VStr "Set up Black formatting rules in pyproject.toml")
                       (VStr "low") "existing_config"))
       else if py.eq_str type "type_checking_config"
       then
         mret (Some (fix_dict issue "Configure MyPy type checker"
                       (VStr "Set up MyPy type checking rules")
                       (VStr "low") "existing_config"))
       else mret None)
    issues.

End CodeQualityExpert.


(** ** The experts as one family *)

Inductive expert := Security | CodeQuality | Architecture | Build | MCP | Model.

(** [expert.detect_hallucinations(project_path)] *)
Definition detect `{Builtins} (e : expert) (fs : FileSystem) (project_path : Path)
  : HallucinationResult :=
  match e with
  | Security => SecurityExpert.detect_hallucinations fs project_path
  | CodeQuality => CodeQualityExpert.detect_hallucinations fs project_path
  | Architecture => ArchitectureExpert.detect_hallucinations fs project_path
  | Build => BuildExpert.detect_hallucinations fs project_path
  | MCP => MCPExpert.detect_hallucinations fs project_path
  | Model => ModelExpert.detect_hallucinations fs project_path
  end.

(** [expert.suggest_fixes(issues)] *)
Definition suggest_fixes `{Builtins} (e : expert) (issues : list dict)
  : result (list dict) :=
  match e with
  | Security => SecurityExpert.suggest_fixes issues
  | CodeQuality => CodeQualityExpert.suggest_fixes issues
  | Architecture => ArchitectureExpert.suggest_fixes issues
  | Build => BuildExpert.suggest_fixes issues
  | MCP => MCPExpert.suggest_fixes issues
  | Model => ModelExpert.suggest_fixes issues
  end.

(** ** Notions the statements below are written in *)

(** The artifacts an expert looks at: the Python files below the project for
    the security expert, what its [_find_existing_...] probe collects for
    each of the others. *)
Definition relevant_artifacts (e : expert) (fs : FileSystem) (project_path : Path)
  : list Path :=
  match e with
  | Security => rglob fs project_path "*.py"
  | CodeQuality => CodeQualityExpert._find_existing_tool_outputs fs project_path
  | Architecture => ArchitectureExpert._find_existing_architecture_data fs project_path
  | Build => BuildExpert._find_existing_build_data fs project_path
  | MCP => MCPExpert._find_existing_mcp_data fs project_path
  | Model => ModelExpert._find_existing_model_data fs project_path
  end.

(** The recommendations an expert gives when it has nothing to look at. *)
Definition bootstrap_recommendations (e : expert) : list string :=
  match e with
  | Security =>
      ["No security issues detected";
       "Continue monitoring for security vulnerabilities";
       "Implement automated security scanning in CI/CD"]
  | CodeQuality =>
      ["No existing code quality tool outputs found";
       "Consider running quality tools and saving outputs for analysis";
       "Set up CI/CD pipeline to capture tool outputs";
       "Use pre-commit hooks to generate quality reports"]
  | Architecture =>
      ["No existing architecture documentation found";
       "Consider creating architecture decision records (ADRs)";
       "Document system components and their relationships";
       "Create dependency diagrams and system maps"]
  | Build =>
      ["No existing build configuration found";
       "Consider setting up proper build tools (poetry, pip, etc.)";
       "Implement automated build pipelines";
       "Set up build artifact management"]
  | MCP =>
      ["No existing MCP configuration found";
       "Consider setting up MCP server configuration";
       "Implement MCP client integration";
       "Set up MCP logging and monitoring"]
  | Model =>
      ["No existing model configuration found";
       "Consider documenting model architecture and parameters";
       "Implement model versioning and tracking";
       "Set up model performance monitoring"]
  end.

(** The confidence an expert reports when it has nothing to look at. *)
Definition confidence_without_artifacts (e : expert) : Q :=
  match e with
  | Security => 0.9
  | CodeQuality => 0.5
  | Architecture | Build | MCP | Model => 0.3
  end.

(** The experts whose probe has a branch of its own for "nothing found"
    that reports confidence 0.3. *)
Definition probes_with_low_confidence (e : expert) : bool :=
  match e with
  | Architecture | Build | MCP | Model => true
  | Security | CodeQuality => false
  end.

(** A finding that carries just a priority. *)
Definition with_priority (p : string) : dict := {["priority" := VStr p]}.

(** The number of findings whose priority is [p]. *)
Fixpoint priority_count (p : string) (findings : list dict) : nat :=
  match findings with
  | [] => 0
  | f :: findings' =>
      (if py.get_eq f "priority" p then 1 else 0) + priority_count p findings'
  end.

(** 0.8 minus 0.1 per high finding minus 0.2 per critical finding *)
Definition penalised (high critical : nat) : Q :=
  0.8 - 0.1 * inject_Z (Z.of_nat high) - 0.2 * inject_Z (Z.of_nat critical).

(** floor 0.0, ceiling 1.0 *)
Definition clamp01 (x : Q) : Q :=
  if Qlt_le_dec x 0 then 0
  else if Qlt_le_dec 1 x then 1
  else x.

(** critical 10, high 5, medium 2, anything else 1 *)
Definition risk_weight (issue : dict) : Q :=
  if py.get_eq issue "priority" "critical" then 10
  else if py.get_eq issue "priority" "high" then 5
  else if py.get_eq issue "priority" "medium" then 2
  else 1.

Fixpoint weight_sum (issues : list dict) : Q :=
  match issues with
  | [] => 0
  | issue :: issues' => risk_weight issue + weight_sum issues'
  end.

(** at most 10 *)
Definition cap10 (x : Q) : Q := if Qlt_le_dec 10 x then 10 else x.

(** The patterns of the two families. *)
Definition all_patterns : list string :=
  SecurityExpert.credential_patterns ++ SecurityExpert.subprocess_patterns.

(** The findings of one file: one per credential pattern found in it, then
    one per subprocess pattern found in it. *)
Definition findings_of_file (py_file : Path) (content : string) : list dict :=
  map (SecurityExpert.credential_finding py_file content)
      (List.filter (fun pattern => re.search pattern content)
                   SecurityExpert.credential_patterns)
  ++ map (SecurityExpert.subprocess_finding py_file content)
         (List.filter (fun pattern => re.search pattern content)
                      SecurityExpert.subprocess_patterns).

(** The files the security expert scans, with what it reads from each. *)
Definition scanned_files (fs : FileSystem) (project_path : Path)
  : list (Path * string) :=
  omap (fun py_file => pair py_file <$> read_text fs py_file)
       (rglob fs project_path "*.py").

(** A pattern none of whose literal characters is a line feed. *)
Definition one_line (r : list re.atom) : bool :=
  forallb (fun a => match a with
                    | re.Lit c => negb (Ascii.eqb c "010")
                    | re.Alnum _ => true
                    end) r.

(** The text up to the first line feed: the first line. *)
Fixpoint first_line (s : string) : string :=
  match s with
  | EmptyString => EmptyString
  | String c s' => if Ascii.eqb c "010" then EmptyString else String c (first_line s')
  end.

(** [n] is the 1-based index of the first of [lines] that [pattern] is found
    in, and 0 when it is found in none of them. *)
Definition first_matching_line (pattern : string) (lines : list string) (n : nat) : Prop :=
  match n with
  | O => forall line, In line lines -> re.search pattern line = false
  | S k =>
      (exists line, lines !! k = Some line /\ re.search pattern line = true)
      /\ (forall j line, (j < k)%nat -> lines !! j = Some line ->
                         re.search pattern line = false)
  end.

(** The kinds [SecurityExpert.suggest_fixes] has a fix for. *)
Definition known_kind (issue : dict) : bool :=
  py.get_eq issue "type" "security_vulnerability"
  || py.get_eq issue "type" "subprocess_vulnerability".

(** What [SecurityExpert.suggest_fixes] reads from an issue is there: its
    type, and its pattern when the type is that of a credential. *)
Definition fixable (issue : dict) : bool :=
  match issue !! "type" with
  | Some type =>
      if py.eq_str type "security_vulnerability"
      then bool_decide (is_Some (issue !! "pattern"))
      else true
  | None => false
  end.

(** The priority a fix names for an issue of a known kind. *)
Definition fix_priority (issue : dict) : string :=
  if py.get_eq issue "type" "security_vulnerability" then "high" else "critical".

(** A finding of [SecurityExpert.detect_hallucinations] as it should be: of
    the credential kind with priority high, or of the subprocess kind with
    priority critical, and of no other priority. *)
Definition high_or_critical (f : dict) : Prop :=
  ((exists pattern, In pattern SecurityExpert.credential_patterns
                    /\ f !! "pattern" = Some (VStr pattern))
   /\ f !! "type" = Some (VStr "security_vulnerability")
   /\ f !! "priority" = Some (VStr "high")
   /\ (risk_weight f = 5)%Q)
  \/ ((exists pattern, In pattern SecurityExpert.subprocess_patterns
                       /\ f !! "pattern" = Some (VStr pattern))
      /\ f !! "type" = Some (VStr "subprocess_vulnerability")
      /\ f !! "priority" = Some (VStr "critical")
      /\ (risk_weight f = 10)%Q).

(** An interpreter to run the examples with: no text parses as JSON, and a
    string is formatted as itself. *)
Definition sample_builtins : Builtins :=
  {| json_load := fun _ => None;
     format_value := fun v => match v with VStr s => s | _ => "" end |}.

(** A project directory [/proj] that exists and is empty, and the path of a
    project that does not exist. *)
Definition empty_project : FileSystem :=
  {| root := Dir [("proj", Dir [])]; cwd := [] |}.

(** A project [/proj] with one Python file, [app.py]: nine lines of
    assignments, a call of [os.system] on line 10, and a 51-character key of
    the [sk-] shape on line 12. *)
Definition nl : string := String "010" EmptyString.

Definition app_py : string :=
  py.join nl
    ["a = 1"; "b = 2"; "c = 3"; "d = 4"; "e = 5"; "f = 6"; "g = 7"; "h = 8"; "i = 9";
     "os.system(cmd)";
     "";
     "KEY = 'sk-abcdefghijklmnopqrstuvwxABCDEFGHIJKLMNOPQRSTUVWX'";
     ""].

Definition app_project : FileSystem :=
  {| root := Dir [("proj", Dir [("app.py", File (Some app_py));
                                ("notes.txt", File (Some "import subprocess"));
                                ("locked.py", File None)])];
     cwd := [] |}.

Definition proj : Path := {| anchor := true; parts := ["proj"] |}.

Definition missing : Path := {| anchor := true; parts := ["nowhere"] |}.

(** The number of line feeds of a text. *)
Fixpoint newlines (s : string) : nat :=
  match s with
  | EmptyString => O
  | String c s' => (if Ascii.eqb c "010" then 1 else 0) + newlines s'
  end.

(** The key [SecurityExpert.suggest_fixes] looks up in vain in an issue that
    is not [fixable]. *)
Definition missing_key (issue : dict) : string :=
  match issue !! "type" with
  | Some _ => "pattern"
  | None => "type"
  end.

(** An issue as the existence-probing experts append it, of one of the
    [kinds] and one of the [priorities]. *)
Definition probe_issue (kinds priorities : list string) (f : dict) : Prop :=
  exists type file description priority tool source,
    f = issue_dict type file description priority tool source
    /\ In type kinds /\ In priority priorities.

(** An issue as the code quality expert appends it: an entry of a flake8
    report, of priority medium, with its code and its description; or the
    note of a configuration, of priority low. *)
Definition quality_issue (f : dict) : Prop :=
  (f !! "type" = Some (VStr "code_quality_issue")
   /\ is_Some (f !! "code") /\ is_Some (f !! "description")
   /\ f !! "priority" = Some (VStr "medium"))
  \/ (exists type,
        In type ["formatting_config"; "type_checking_config"; "ci_quality_integration"]
        /\ f !! "type" = Some (VStr type)
        /\ f !! "priority" = Some (VStr "low")).

(** The kinds of issue each existence-probing expert has a fix for. *)
Definition fixed_kinds (e : expert) : list string :=
  match e with
  | Architecture => ["documentation_issue"; "structure_issue"; "dependency_issue"]
  | Build => ["build_config_issue"; "build_failure"]
  | MCP => ["mcp_config_issue"; "mcp_failure"]
  | Model => ["model_config_issue"; "model_failure"]
  | CodeQuality => ["code_quality_issue"; "formatting_config"; "type_checking_config"]
  | Security => ["security_vulnerability"; "subprocess_vulnerability"]
  end.

(** The names the build, MCP and model experts probe below the project. *)
Definition probed_names (e : expert) : list string :=
  match e with
  | Build =>
      ["pyproject.toml"; "setup.py"; "setup.cfg"; "build.py";
       "Makefile"; "dockerfile"; "Dockerfile";
       "build/"; "dist/"; "*.egg-info/"; "target/"]
  | MCP =>
      ["mcp_config.json"; "mcp.yaml"; "mcp.toml";
       ".mcp"; "mcp_server.json"; "mcp_client.json";
       "logs/"; "mcp_logs/"; ".mcp_logs/"]
  | Model =>
      ["model_config.json"; "model.yaml"; "config.yaml";
       "hyperparameters.json"; "model_params.json";
       "models/"; "checkpoints/"; "outputs/"; "results/"]
  | _ => []
  end.

(** A project [/proj] whose only entry is the directory [pkg.egg-info]. *)
Definition egg_project : FileSystem :=
  {| root := Dir [("proj", Dir [("pkg.egg-info", Dir [])])]; cwd := [] |}.

(** A project [/proj] with a [pyproject.toml] that names no build system, a
    build log with a failure in it, and a workflow that runs flake8. *)
Definition build_project : FileSystem :=
  {| root :=
       Dir [("proj",
             Dir [("pyproject.toml", File (Some "[tool.black]"));
                  ("build.log", File (Some "Build FAILED"));
                  (".github",
                   Dir [("workflows", Dir [("ci.yml", File (Some "run: flake8 ."))])])])];
     cwd := [] |}.


(** A line of a flake8 report with a colon in its message. *)
Definition flake8_line : string :=
  "src/app.py:10:80: E501 line too long: 92 > 79" +:+ nl.

(** The limits of the operating system on the names it is asked about: a
    component of at most [NAME_MAX] bytes, a path shorter than [PATH_MAX]
    (Linux).  Beyond them [exists()] and [rglob()] raise an [OSError], which
    no expert catches. *)
Definition NAME_MAX : nat := 255.
Definition PATH_MAX : nat := 4096.

Definition accepted (p : Path) : bool :=
  forallb (fun c => (String.length c <=? NAME_MAX)%nat) (parts p)
  && (String.length (str p) <? PATH_MAX)%nat.

(** The paths an expert asks the operating system about when it finds
    none of its artifacts: the project path itself for the walk of the
    security expert, the names below it that the others probe. *)
Definition first_probes (e : expert) (project_path : Path) : list Path :=
  match e with
  | Security => [project_path]
  | CodeQuality =>
      map (truediv project_path)
          (["pyproject.toml"; ".ruff.toml"; "pytest.ini"; "setup.cfg"; ".flake8";
            "tox.ini"; "coverage.xml"; "htmlcov/"; "logs/"; ".github/workflows/";
            ".gitlab-ci.yml"]
           ++ [".github"; ".gitlab-ci"; ".circleci"; "ci"; "jenkins"])
  | Architecture =>
      map (truediv project_path)
          (["README.md"; "ARCHITECTURE.md"; "DESIGN.md"; "docs/";
            "adr/"; "decisions/"; "architecture/"; "design/"]
           ++ ["pyproject.toml"; "setup.py"; "requirements.txt";
               "src/"; "lib/"; "app/"; "core/"])
  | Build | MCP | Model => map (truediv project_path) (probed_names e)
  end.







(** A project [/proj] with a flake8 report of three lines, the second of
    which is an entry. *)
Definition flake8_project : FileSystem :=
  {| root :=
       Dir [("proj",
             Dir [("flake8_report.txt",
                   File (Some ("flake8 3.9.2" +:+ nl +:+ flake8_line
                               +:+ "1 E501 line too long" +:+ nl)))])];
     cwd := [] |}.

(** * Scores *)

Section Scores.

Local Open Scope Q_scope.

Lemma Qltb_lt (a b : Q) : py.Qltb a b = true <-> a < b.
Proof.
  unfold py.Qltb. rewrite negb_true_iff.
  split.
  - intros E. apply Qnot_le_lt. intros L. apply Qle_bool_iff in L. congruence.
  - intros L. destruct (Qle_bool b a) eqn:E; [|reflexivity].
    apply Qle_bool_iff in E. lra.
Qed.

Lemma Qltb_ge (a b : Q) : py.Qltb a b = false <-> b <= a.
Proof.
  unfold py.Qltb. rewrite negb_false_iff. apply Qle_bool_iff.
Qed.

Lemma py_min_spec (a b : Q) :
  (b < a /\ py.min a b = b) \/ (a <= b /\ py.min a b = a).
Proof.
  unfold py.min. destruct (py.Qltb b a) eqn:E.
  - left. split; [by apply Qltb_lt|reflexivity].
  - right. split; [by apply Qltb_ge|reflexivity].
Qed.

Lemma py_max_spec (a b : Q) :
  (a < b /\ py.max a b = b) \/ (b <= a /\ py.max a b = a).
Proof.
  unfold py.max. destruct (py.Qltb a b) eqn:E.
  - left. split; [by apply Qltb_lt|reflexivity].
  - right. split; [by apply Qltb_ge|reflexivity].
Qed.

Lemma clamp01_spec (x : Q) :
  (x < 0 /\ clamp01 x = 0) \/ (1 < x /\ clamp01 x = 1)
  \/ (0 <= x <= 1 /\ clamp01 x = x).
Proof.
  unfold clamp01. destruct (Qlt_le_dec x 0); [by left|].
  destruct (Qlt_le_dec 1 x); [right; by left|].
  right; right. repeat split; assumption.
Qed.

Lemma py_clamp (x : Q) : py.max 0.0 (py.min 1.0 x) == clamp01 x.
Proof.
  destruct (py_min_spec 1.0 x) as [[L ->]|[L ->]];
    [destruct (py_max_spec 0.0 x) as [[L' ->]|[L' ->]]
    |destruct (py_max_spec 0.0 1.0) as [[L' ->]|[L' ->]]];
    destruct (clamp01_spec x) as [[C ->]|[[C ->]|[C ->]]]; lra.
Qed.

Lemma clamp01_mono (x y : Q) : x <= y -> clamp01 x <= clamp01 y.
Proof.
  intros L.
  destruct (clamp01_spec x) as [[C ->]|[[C ->]|[C ->]]];
    destruct (clamp01_spec y) as [[D ->]|[[D ->]|[D ->]]]; lra.
Qed.

Lemma clamp01_proper (x y : Q) : x == y -> clamp01 x == clamp01 y.
Proof.
  intros E. apply Qle_antisym; apply clamp01_mono; lra.
Qed.

Lemma len_filter_priority (p : string) (findings : list dict) :
  py.len (List.filter (fun f => py.get_eq f "priority" p) findings)
  = Z.of_nat (priority_count p findings).
Proof.
  unfold py.len. f_equal.
  induction findings as [|f l IH]; [reflexivity|].
  simpl. destruct (py.get_eq f "priority" p); simpl; by rewrite IH.
Qed.

Lemma priority_count_app (p : string) (l1 l2 : list dict) :
  priority_count p (l1 ++ l2) = (priority_count p l1 + priority_count p l2)%nat.
Proof.
  induction l1 as [|f l1 IH]; [reflexivity|].
  simpl. rewrite IH. lia.
Qed.

(** On a list that is not empty the confidence is the penalised base,
    clamped. *)
Lemma calculate_confidence_cons (f : dict) (l : list dict) :
  BaseExpert.calculate_confidence (f :: l)
  == clamp01 (penalised (priority_count "high" (f :: l))
                        (priority_count "critical" (f :: l))).
Proof.
  unfold BaseExpert.calculate_confidence.
  rewrite !len_filter_priority, py_clamp.
  apply clamp01_proper. unfold penalised. lra.
Qed.

Lemma penalised_mono (h h' c c' : nat) :
  (h <= h')%nat -> (c <= c')%nat -> penalised h' c' <= penalised h c.
Proof.
  intros Hh Hc. unfold penalised.
  assert (inject_Z (Z.of_nat h) <= inject_Z (Z.of_nat h')).
  { rewrite <- Zle_Qle. lia. }
  assert (inject_Z (Z.of_nat c) <= inject_Z (Z.of_nat c')).
  { rewrite <- Zle_Qle. lia. }
  lra.
Qed.

Lemma penalised_le_base (h c : nat) : penalised h c <= 0.8.
Proof.
  unfold penalised.
  assert (0 <= inject_Z (Z.of_nat h)).
  { change 0 with (inject_Z 0). rewrite <- Zle_Qle. lia. }
  assert (0 <= inject_Z (Z.of_nat c)).
  { change 0 with (inject_Z 0). rewrite <- Zle_Qle. lia. }
  lra.
Qed.

Lemma calculate_confidence_range (l : list dict) :
  0 <= BaseExpert.calculate_confidence l <= 1.
Proof.
  destruct l as [|f l].
  - simpl. lra.
  - rewrite calculate_confidence_cons.
    match goal with |- context [clamp01 ?x] =>
      destruct (clamp01_spec x) as [[C ->]|[[C ->]|[C ->]]] end; lra.
Qed.

Lemma calculate_confidence_cons_le_base (f : dict) (l : list dict) :
  BaseExpert.calculate_confidence (f :: l) <= 0.8.
Proof.
  rewrite calculate_confidence_cons.
  match goal with |- context [clamp01 (penalised ?h ?c)] =>
    pose proof (penalised_le_base h c);
    destruct (clamp01_spec (penalised h c)) as [[C ->]|[[C ->]|[C ->]]] end; lra.
Qed.

(** Two lists that are not empty: more high and more critical findings
    never give more confidence. *)
Lemma calculate_confidence_counts (f f' : dict) (l l' : list dict) :
  (priority_count "high" (f :: l) <= priority_count "high" (f' :: l'))%nat ->
  (priority_count "critical" (f :: l) <= priority_count "critical" (f' :: l'))%nat ->
  BaseExpert.calculate_confidence (f' :: l') <= BaseExpert.calculate_confidence (f :: l).
Proof.
  intros Hh Hc. rewrite !calculate_confidence_cons.
  apply clamp01_mono, penalised_mono; assumption.
Qed.

End Scores.

Section ScoreProperties.

Local Open Scope Q_scope.

Lemma get_eq_with_priority (p q : string) :
  py.get_eq (with_priority p) "priority" q = String.eqb p q.
Proof.
  unfold py.get_eq, with_priority. by rewrite lookup_singleton_eq.
Qed.

(** The confidence in exact arithmetic.  That of an empty list of findings
    is 0.9.  Of a list that is not empty it is 0.8 minus 0.1 per finding of
    priority high minus 0.2 per finding of priority critical, kept within
    0.0 and 1.0; a finding of any other priority (low, medium, none)
    changes nothing.  One high finding gives 0.7, one critical 0.6, two
    criticals 0.4 and five criticals 0.0: the numbers the doubles of
    [binary64.calculate_confidence] are nearest to. *)
Lemma calculate_confidence_values :
  BaseExpert.calculate_confidence [] = 0.9
  /\ (forall f l,
        BaseExpert.calculate_confidence (f :: l)
        == clamp01 (penalised (priority_count "high" (f :: l))
                              (priority_count "critical" (f :: l))))
  /\ (forall f l,
        0 <= penalised (priority_count "high" (f :: l))
                       (priority_count "critical" (f :: l)) ->
        BaseExpert.calculate_confidence (f :: l)
        == 0.8 - 0.1 * inject_Z (Z.of_nat (priority_count "high" (f :: l)))
               - 0.2 * inject_Z (Z.of_nat (priority_count "critical" (f :: l))))
  /\ (forall f g l,
        py.get_eq f "priority" "high" = false ->
        py.get_eq f "priority" "critical" = false ->
        BaseExpert.calculate_confidence (f :: g :: l)
        == BaseExpert.calculate_confidence (g :: l))
  /\ BaseExpert.calculate_confidence [with_priority "low"; with_priority "medium"] == 0.8
  /\ BaseExpert.calculate_confidence [with_priority "high"] == 0.7
  /\ BaseExpert.calculate_confidence [with_priority "critical"] == 0.6
  /\ BaseExpert.calculate_confidence (repeat (with_priority "critical") 2) == 0.4
  /\ BaseExpert.calculate_confidence (repeat (with_priority "critical") 5) == 0.0.
Proof.
  split; [reflexivity|].
  split; [apply calculate_confidence_cons|].
  split.
  { intros f l Hpos. rewrite calculate_confidence_cons.
    pose proof (penalised_le_base (priority_count "high" (f :: l))
                                  (priority_count "critical" (f :: l))) as Hle.
    destruct (clamp01_spec (penalised (priority_count "high" (f :: l))
                                      (priority_count "critical" (f :: l))))
      as [[C E]|[[C E]|[C E]]]; rewrite E; unfold penalised in *; lra. }
  split.
  { intros f g l Hh Hc. rewrite !calculate_confidence_cons.
    apply clamp01_proper.
    change (priority_count "high" (f :: g :: l))
      with ((if py.get_eq f "priority" "high" then 1 else 0)
            + priority_count "high" (g :: l))%nat.
    change (priority_count "critical" (f :: g :: l))
      with ((if py.get_eq f "priority" "critical" then 1 else 0)
            + priority_count "critical" (g :: l))%nat.
    rewrite Hh, Hc. reflexivity. }
  repeat split; apply Qeq_bool_eq; vm_compute; reflexivity.
Qed.

(** C8. The confidence lies in [0, 1] for every list of findings, and
    putting one more finding of priority high or critical into a list, at
    any place, never raises it; between two lists that are not empty, the
    one with at least as many high and at least as many critical findings
    has at most the confidence of the other. *)
Theorem calculate_confidence_bounded_antitone :
  (forall l, 0 <= BaseExpert.calculate_confidence l <= 1)
  /\ (forall l1 l2 f,
        py.get_eq f "priority" "high" = true
        \/ py.get_eq f "priority" "critical" = true ->
        BaseExpert.calculate_confidence (l1 ++ f :: l2)
        <= BaseExpert.calculate_confidence (l1 ++ l2))
  /\ (forall f l f' l',
        (priority_count "high" (f :: l) <= priority_count "high" (f' :: l'))%nat ->
        (priority_count "critical" (f :: l) <= priority_count "critical" (f' :: l'))%nat ->
        BaseExpert.calculate_confidence (f' :: l')
        <= BaseExpert.calculate_confidence (f :: l)).
Proof.
  split; [apply calculate_confidence_range|].
  split; [|intros f l f' l'; apply calculate_confidence_counts].
  intros l1 l2 f _.
  destruct (l1 ++ l2) as [|g l] eqn:E.
  - apply app_eq_nil in E as [-> ->]. simpl app.
    pose proof (calculate_confidence_cons_le_base f []).
    change (BaseExpert.calculate_confidence []) with 0.9. lra.
  - assert (exists g' l', l1 ++ f :: l2 = g' :: l') as (g' & l' & E').
    { destruct l1; simpl; eauto. }
    rewrite E'. apply calculate_confidence_counts; rewrite <- E, <- E';
      rewrite !priority_count_app; simpl; lia.
Qed.

(** Putting one high finding in front of two findings lowers 0.7 to 0.6. *)
Lemma calculate_confidence_bounded_antitone_witness :
  BaseExpert.calculate_confidence
    ([with_priority "low"] ++ with_priority "high" :: [with_priority "high"])
  <= BaseExpert.calculate_confidence ([with_priority "low"] ++ [with_priority "high"]).
Proof.
  apply (proj1 (proj2 calculate_confidence_bounded_antitone)).
  left. reflexivity.
Defined.

Lemma risk_fold (issues : list dict) (total_score : Q) :
  fold_left (fun total_score issue =>
               if py.get_eq issue "priority" "critical" then total_score + 10.0
               else if py.get_eq issue "priority" "high" then total_score + 5.0
               else if py.get_eq issue "priority" "medium" then total_score + 2.0
               else total_score + 1.0)
            issues total_score
  == total_score + weight_sum issues.
Proof.
  revert total_score. induction issues as [|issue issues IH]; intros total_score.
  - simpl. lra.
  - simpl fold_left. rewrite IH. simpl weight_sum. unfold risk_weight.
    destruct (py.get_eq issue "priority" "critical"); [lra|].
    destruct (py.get_eq issue "priority" "high"); [lra|].
    destruct (py.get_eq issue "priority" "medium"); lra.
Qed.

Lemma py_min_cap10 (x : Q) : py.min 10.0 x == cap10 x.
Proof.
  unfold cap10.
  destruct (py_min_spec 10.0 x) as [[L ->]|[L ->]];
    destruct (Qlt_le_dec 10 x); lra.
Qed.

Lemma cap10_proper (x y : Q) : x == y -> cap10 x == cap10 y.
Proof.
  intros E. unfold cap10.
  destruct (Qlt_le_dec 10 x), (Qlt_le_dec 10 y); lra.
Qed.

Lemma calculate_risk_score_cons (issue : dict) (issues : list dict) :
  SecurityExpert.calculate_risk_score (issue :: issues)
  == cap10 (weight_sum (issue :: issues)).
Proof.
  unfold SecurityExpert.calculate_risk_score.
  rewrite py_min_cap10. apply cap10_proper.
  rewrite risk_fold. lra.
Qed.

(** C3. The risk score of an empty list is 0.0.  Of any other list it is
    the sum of the weights of its issues (critical 10, high 5, medium 2,
    any other priority 1), or 10 when the sum is more.  A critical and a
    high issue give 10.0, one medium issue gives 2.0. *)
Theorem calculate_risk_score_values :
  SecurityExpert.calculate_risk_score [] = 0.0
  /\ (forall issue issues,
        SecurityExpert.calculate_risk_score (issue :: issues)
        == cap10 (weight_sum (issue :: issues)))
  /\ (forall issues,
        SecurityExpert.calculate_risk_score issues == cap10 (weight_sum issues))
  /\ (risk_weight (with_priority "critical") = 10
      /\ risk_weight (with_priority "high") = 5
      /\ risk_weight (with_priority "medium") = 2
      /\ risk_weight (with_priority "low") = 1
      /\ risk_weight (with_priority "urgent") = 1
      /\ risk_weight ∅ = 1)
  /\ SecurityExpert.calculate_risk_score
       [with_priority "critical"; with_priority "high"] == 10.0
  /\ SecurityExpert.calculate_risk_score [with_priority "medium"] == 2.0.
Proof.
  split; [reflexivity|].
  split; [apply calculate_risk_score_cons|].
  split.
  { intros [|issue issues]; [|apply calculate_risk_score_cons].
    apply Qeq_bool_eq. vm_compute. reflexivity. }
  split; [repeat split|].
  split; apply Qeq_bool_eq; vm_compute; reflexivity.
Qed.

(** C10. Whatever the findings are, [validate_findings] answers with the
    record that maps validated to true, confidence to 0.8 and
    findings_count to the length of the list, and nothing else; two lists
    of one length get the same answer. *)
Theorem validate_findings_record (findings : list dict) :
  (forall key,
     BaseExpert.validate_findings findings !! key
     = if String.eqb key "validated" then Some (VBool true)
       else if String.eqb key "confidence" then Some (VFloat 0.8)
       else if String.eqb key "findings_count"
            then Some (VInt (Z.of_nat (length findings)))
       else None)
  /\ (forall findings' : list dict,
        length findings' = length findings ->
        BaseExpert.validate_findings findings' = BaseExpert.validate_findings findings).
Proof.
  split.
  - intros key. unfold BaseExpert.validate_findings, py.len. simpl list_to_map.
    destruct (String.eqb_spec key "validated") as [->|N1]; [reflexivity|].
    rewrite lookup_insert_ne by congruence.
    destruct (String.eqb_spec key "confidence") as [->|N2]; [reflexivity|].
    rewrite lookup_insert_ne by congruence.
    destruct (String.eqb_spec key "findings_count") as [->|N3].
    + by rewrite lookup_insert_eq.
    + rewrite lookup_insert_ne by congruence. apply lookup_empty.
  - intros findings' E. unfold BaseExpert.validate_findings, py.len. by rewrite E.
Qed.

End ScoreProperties.

(** * The confidence in doubles *)

Section BinaryScores.

Lemma calculate_confidence64_cons (f : dict) (l : list dict) :
  binary64.calculate_confidence (f :: l)
  = (binary64.max 0.0
       (binary64.min 1.0
          (0.8 - binary64.of_int (Z.of_nat (priority_count "high" (f :: l))) * 0.1
               - binary64.of_int (Z.of_nat (priority_count "critical" (f :: l))) * 0.2)))%float.
Proof.
  unfold binary64.calculate_confidence, py.len.
  by rewrite <- !len_filter_priority.
Qed.

(** C2, as the code has it.  The confidence of an empty list of findings is
    0.9.  Of a list that is not empty it is 0.8 minus 0.1 per finding of
    priority high minus 0.2 per finding of priority critical, computed in
    doubles and kept within 0.0 and 1.0; a finding of any other priority
    (low, medium, none) changes nothing.  One high finding gives
    0.7000000000000001, which is above 0.7, and one critical
    0.6000000000000001, which is above 0.6; two criticals give 0.4 and five
    criticals 0.0. *)
Theorem calculate_confidence_binary64 :
  binary64.calculate_confidence [] = 0.9%float
  /\ (forall f l,
        binary64.calculate_confidence (f :: l)
        = binary64.max 0.0
            (binary64.min 1.0
               (0.8 - binary64.of_int (Z.of_nat (priority_count "high" (f :: l))) * 0.1
                    - binary64.of_int (Z.of_nat (priority_count "critical" (f :: l))) * 0.2))%float)
  /\ (forall f g l,
        py.get_eq f "priority" "high" = false ->
        py.get_eq f "priority" "critical" = false ->
        binary64.calculate_confidence (f :: g :: l)
        = binary64.calculate_confidence (g :: l))
  /\ binary64.calculate_confidence [with_priority "low"; with_priority "medium"]
     = 0.8%float
  /\ binary64.calculate_confidence [with_priority "high"] = 0.7000000000000001%float
  /\ PrimFloat.ltb 0.7 (binary64.calculate_confidence [with_priority "high"]) = true
  /\ binary64.calculate_confidence [with_priority "critical"] = 0.6000000000000001%float
  /\ PrimFloat.ltb 0.6 (binary64.calculate_confidence [with_priority "critical"]) = true
  /\ binary64.calculate_confidence (repeat (with_priority "critical") 2) = 0.4%float
  /\ binary64.calculate_confidence (repeat (with_priority "critical") 5) = 0.0%float.
Proof.
  split; [reflexivity|].
  split; [exact calculate_confidence64_cons|].
  split.
  { intros f g l Hh Hc. rewrite !calculate_confidence64_cons.
    change (priority_count "high" (f :: g :: l))
      with ((if py.get_eq f "priority" "high" then 1 else 0)
            + priority_count "high" (g :: l))%nat.
    change (priority_count "critical" (f :: g :: l))
      with ((if py.get_eq f "priority" "critical" then 1 else 0)
            + priority_count "critical" (g :: l))%nat.
    by rewrite Hh, Hc. }
  repeat split.
Qed.

End BinaryScores.

(** C2 as it is stated fails: in doubles 0.8 - 0.1 is not 0.7 and 0.8 - 0.2
    is not 0.6; the confidence of one high finding and that of one critical
    finding lie one unit in the last place above. *)
Lemma one_finding_is_not_a_round_tenth :
  PrimFloat.eqb (binary64.calculate_confidence [with_priority "high"]) 0.7 = false
  /\ PrimFloat.ltb 0.7 (binary64.calculate_confidence [with_priority "high"]) = true
  /\ binary64.calculate_confidence [with_priority "high"] = 0x1.6666666666667p-1%float
  /\ PrimFloat.eqb (binary64.calculate_confidence [with_priority "critical"]) 0.6 = false
  /\ PrimFloat.ltb 0.6 (binary64.calculate_confidence [with_priority "critical"]) = true
  /\ binary64.calculate_confidence [with_priority "critical"] = 0x1.3333333333334p-1%float.
Proof. repeat split. Qed.

(** * The security expert *)

Section Security.

Lemma fold_append_filter {A B} (t : A -> bool) (g : A -> B) (l : list A) (acc : list B) :
  fold_left (fun acc x => if t x then acc ++ [g x] else acc) l acc
  = acc ++ map g (List.filter t l).
Proof.
  revert acc. induction l as [|x l IH]; intros acc; simpl.
  - by rewrite app_nil_r.
  - rewrite IH. destruct (t x); simpl; [by rewrite <- app_assoc|reflexivity].
Qed.

Lemma scan_content_spec (py_file : Path) (content : string) (acc : list dict) :
  SecurityExpert.scan_content py_file content acc
  = acc ++ findings_of_file py_file content.
Proof.
  unfold SecurityExpert.scan_content, findings_of_file.
  rewrite (fold_append_filter (fun pattern => re.search pattern content)
             (SecurityExpert.credential_finding py_file content)).
  rewrite (fold_append_filter (fun pattern => re.search pattern content)
             (SecurityExpert.subprocess_finding py_file content)).
  by rewrite app_assoc.
Qed.

Lemma scan_files_spec (fs : FileSystem) (files : list Path) (acc : list dict) :
  fold_left (fun hallucinations py_file =>
               match read_text fs py_file with
               | Some content => SecurityExpert.scan_content py_file content hallucinations
               | None => hallucinations
               end) files acc
  = acc ++ flat_map (fun fc : Path * string => findings_of_file (fst fc) (snd fc))
                    (omap (fun py_file => pair py_file <$> read_text fs py_file) files).
Proof.
  revert acc. induction files as [|py_file files IH]; intros acc; simpl.
  - by rewrite app_nil_r.
  - rewrite IH. destruct (read_text fs py_file) as [content|]; simpl.
    + by rewrite scan_content_spec, app_assoc.
    + reflexivity.
Qed.

(** What the security expert reports: the findings of each scanned file, in
    the order of the scan. *)
Lemma detect_hallucinations_spec (fs : FileSystem) (project_path : Path) :
  hallucinations (SecurityExpert.detect_hallucinations fs project_path)
  = flat_map (fun fc : Path * string => findings_of_file (fst fc) (snd fc))
             (scanned_files fs project_path).
Proof.
  unfold SecurityExpert.detect_hallucinations. simpl hallucinations.
  by rewrite scan_files_spec.
Qed.

Lemma first_match_from_spec (pattern : string) (lines : list string) (i : nat) :
  match SecurityExpert.first_match_from (S i) pattern lines with
  | O => forall line, In line lines -> re.search pattern line = false
  | S n =>
      exists k, n = (i + k)%nat
      /\ (exists line, lines !! k = Some line /\ re.search pattern line = true)
      /\ (forall j line, (j < k)%nat -> lines !! j = Some line ->
                         re.search pattern line = false)
  end.
Proof.
  revert i. induction lines as [|l lines IH]; intros i; simpl.
  - intros line [].
  - destruct (re.search pattern l) eqn:E.
    + exists 0%nat. split; [lia|]. split; [by exists l|]. intros j line Hj. lia.
    + specialize (IH (S i)).
      destruct (SecurityExpert.first_match_from (S (S i)) pattern lines) as [|n].
      * intros line [<-|Hin]; [assumption|by apply IH].
      * destruct IH as (k & -> & Hk & Hbefore).
        exists (S k). split; [lia|]. split; [exact Hk|].
        intros [|j] line Hj Hline; simpl in Hline.
        -- by injection Hline as <-.
        -- apply (Hbefore j); [lia|assumption].
Qed.

Lemma find_line_number_spec (content pattern : string) :
  first_matching_line pattern (py.split "010" content)
                      (SecurityExpert._find_line_number content pattern).
Proof.
  unfold SecurityExpert._find_line_number, first_matching_line.
  pose proof (first_match_from_spec pattern (py.split "010" content) 0) as H.
  destruct (SecurityExpert.first_match_from 1 pattern (py.split "010" content)) as [|n];
    [exact H|].
  destruct H as (k & -> & H). exact H.
Qed.

Lemma split_first_line (s : string) :
  exists rest, py.split "010" s = first_line s :: rest.
Proof.
  induction s as [|c s [rest IH]]; simpl.
  - by exists [].
  - destruct (Ascii.eqb c "010"); [by eexists|].
    rewrite IH. by eexists.
Qed.

Lemma is_alnum_not_newline (c : ascii) :
  re.is_alnum c = true -> Ascii.eqb c "010" = false.
Proof.
  intros H. destruct (Ascii.eqb_spec c "010") as [->|]; [|reflexivity].
  vm_compute in H. discriminate.
Qed.

Lemma match_alnum_first_line (n : nat) (s s' : string) :
  re.match_alnum n s = Some s' ->
  re.match_alnum n (first_line s) = Some (first_line s').
Proof.
  revert s. induction n as [|n IH]; intros s; simpl.
  - by intros [= ->].
  - destruct s as [|c s]; [discriminate|].
    destruct (re.is_alnum c) eqn:E; [|discriminate].
    intros H. simpl. rewrite (is_alnum_not_newline c E). simpl. rewrite E.
    by apply IH.
Qed.

(** A match of a one-line pattern lies in the first line when it starts
    there. *)
Lemma match_here_first_line (r : list re.atom) (s : string) :
  one_line r = true ->
  re.match_here r s = true -> re.match_here r (first_line s) = true.
Proof.
  revert s. induction r as [|a r IH]; intros s Hr; [reflexivity|].
  simpl in Hr. apply andb_true_iff in Hr as [Ha Hr].
  destruct a as [c|n]; simpl.
  - destruct s as [|d s]; [discriminate|].
    intros H. apply andb_true_iff in H as [Hc H].
    apply Ascii.eqb_eq in Hc as <-.
    simpl. apply negb_true_iff in Ha. rewrite Ha. simpl.
    rewrite Ascii.eqb_refl. simpl. by apply IH.
  - destruct (re.match_alnum n s) as [s'|] eqn:E; [|discriminate].
    intros H. rewrite (match_alnum_first_line n s s' E). by apply IH.
Qed.

(** A one-line pattern found in a text is found in one of its lines. *)
Lemma search_atoms_in_a_line (r : list re.atom) (s : string) :
  one_line r = true ->
  re.search_atoms r s = true ->
  exists line, In line (py.split "010" s) /\ re.search_atoms r line = true.
Proof.
  intros Hr. induction s as [|c s IH].
  - intros H. exists EmptyString. split; [by left|exact H].
  - intros H. simpl in H. apply orb_true_iff in H as [H|H].
    + apply (match_here_first_line r _ Hr) in H.
      destruct (split_first_line (String c s)) as [rest E].
      exists (first_line (String c s)). rewrite E. split; [by left|].
      destruct (first_line (String c s)); simpl; by rewrite H.
    + destruct (IH H) as (line & Hin & Hline).
      simpl. destruct (Ascii.eqb c "010").
      * exists line. split; [by right|assumption].
      * destruct (py.split "010" s) as [|l ls]; [destruct Hin|].
        destruct Hin as [<-|Hin].
        -- exists (String c l). split; [by left|].
           simpl. rewrite Hline. apply orb_true_r.
        -- exists line. split; [by right|assumption].
Qed.

Lemma all_patterns_one_line :
  forallb (fun pattern => match re.compile pattern with
                          | Some r => one_line r
                          | None => false
                          end) all_patterns = true.
Proof. vm_compute. reflexivity. Qed.

(** A pattern of the two families found in a text is found on a line, so
    that its line number is not 0. *)
Lemma find_line_number_positive (content pattern : string) :
  In pattern all_patterns ->
  re.search pattern content = true ->
  (1 <= SecurityExpert._find_line_number content pattern)%nat.
Proof.
  intros Hin Hfound.
  pose proof all_patterns_one_line as Hall.
  rewrite forallb_forall in Hall. specialize (Hall pattern Hin).
  pose proof (find_line_number_spec content pattern) as Hspec.
  destruct (SecurityExpert._find_line_number content pattern) as [|n]; [|lia].
  exfalso. simpl in Hspec. unfold re.search in *.
  destruct (re.compile pattern) as [r|]; [|discriminate].
  destruct (search_atoms_in_a_line r content Hall Hfound) as (line & Hline & Hmatch).
  specialize (Hspec line Hline). congruence.
Qed.

End Security.

Section SecurityProperties.

Lemma credential_finding_fields (py_file : Path) (content pattern : string) :
  let f := SecurityExpert.credential_finding py_file content pattern in
  f !! "type" = Some (VStr "security_vulnerability")
  /\ f !! "file" = Some (VStr (str py_file))
  /\ f !! "pattern" = Some (VStr pattern)
  /\ f !! "priority" = Some (VStr "high")
  /\ f !! "line" = Some (VInt (Z.of_nat (SecurityExpert._find_line_number content pattern)))
  /\ (risk_weight f = 5)%Q.
Proof. repeat split. Qed.

Lemma subprocess_finding_fields (py_file : Path) (content pattern : string) :
  let f := SecurityExpert.subprocess_finding py_file content pattern in
  f !! "type" = Some (VStr "subprocess_vulnerability")
  /\ f !! "file" = Some (VStr (str py_file))
  /\ f !! "pattern" = Some (VStr pattern)
  /\ f !! "priority" = Some (VStr "critical")
  /\ f !! "line" = Some (VInt (Z.of_nat (SecurityExpert._find_line_number content pattern)))
  /\ (risk_weight f = 10)%Q.
Proof. repeat split. Qed.

(** Where a finding of a file comes from. *)
Lemma in_findings_of_file (py_file : Path) (content : string) (f : dict) :
  In f (findings_of_file py_file content) ->
  exists pattern,
    re.search pattern content = true
    /\ ((In pattern SecurityExpert.credential_patterns
         /\ f = SecurityExpert.credential_finding py_file content pattern)
        \/ (In pattern SecurityExpert.subprocess_patterns
            /\ f = SecurityExpert.subprocess_finding py_file content pattern)).
Proof.
  unfold findings_of_file. rewrite in_app_iff, !in_map_iff.
  intros [(pattern & <- & Hin)|(pattern & <- & Hin)];
    apply filter_In in Hin as [Hin Hfound]; exists pattern; split; auto.
Qed.

Lemma in_detect_hallucinations (fs : FileSystem) (project_path : Path) (f : dict) :
  In f (hallucinations (SecurityExpert.detect_hallucinations fs project_path)) ->
  exists py_file content,
    In (py_file, content) (scanned_files fs project_path)
    /\ In f (findings_of_file py_file content).
Proof.
  rewrite detect_hallucinations_spec, in_flat_map.
  intros ([py_file content] & Hin & Hf). eauto.
Qed.

(** C5. The line number the expert computes for a text and a pattern is
    the 1-based index of the first line of the text the pattern is found in,
    and 0 when it is found in no line.  Every finding the security expert
    emits carries, as its line, that number for the text of its file and
    its own pattern; the pattern being found in the text, the number is at
    least 1. *)
Theorem line_is_first_matching_line :
  (forall content pattern,
     first_matching_line pattern (py.split "010" content)
                         (SecurityExpert._find_line_number content pattern))
  /\ (forall fs project_path f,
        In f (hallucinations (SecurityExpert.detect_hallucinations fs project_path)) ->
        exists py_file content pattern,
          In (py_file, content) (scanned_files fs project_path)
          /\ In pattern all_patterns
          /\ re.search pattern content = true
          /\ f !! "file" = Some (VStr (str py_file))
          /\ f !! "pattern" = Some (VStr pattern)
          /\ f !! "line"
             = Some (VInt (Z.of_nat (SecurityExpert._find_line_number content pattern)))
          /\ (1 <= SecurityExpert._find_line_number content pattern)%nat).
Proof.
  split; [apply find_line_number_spec|].
  intros fs project_path f Hf.
  apply in_detect_hallucinations in Hf as (py_file & content & Hscan & Hf).
  apply in_findings_of_file in Hf as (pattern & Hfound & Hf).
  assert (In pattern all_patterns) as Hall.
  { unfold all_patterns. rewrite in_app_iff. tauto. }
  exists py_file, content, pattern.
  pose proof (find_line_number_positive content pattern Hall Hfound).
  destruct Hf as [[_ ->]|[_ ->]]; repeat split; assumption.
Qed.

(** The call of [os.system] on line 10 of [app.py] is reported on line 10. *)
Lemma line_is_first_matching_line_witness :
  exists py_file content pattern,
    In (py_file, content) (scanned_files app_project proj)
    /\ In pattern all_patterns
    /\ re.search pattern content = true
    /\ SecurityExpert.subprocess_finding (truediv proj "app.py") app_py "os\.system" !! "file"
       = Some (VStr (str py_file))
    /\ SecurityExpert.subprocess_finding (truediv proj "app.py") app_py "os\.system" !! "pattern"
       = Some (VStr pattern)
    /\ SecurityExpert.subprocess_finding (truediv proj "app.py") app_py "os\.system" !! "line"
       = Some (VInt (Z.of_nat (SecurityExpert._find_line_number content pattern)))
    /\ (1 <= SecurityExpert._find_line_number content pattern)%nat.
Proof.
  apply (proj2 line_is_first_matching_line app_project proj).
  vm_compute. right. left. reflexivity.
Defined.

Example line_of_os_system :
  map (fun f => (f !! "type", f !! "priority", f !! "line"))
      (hallucinations (SecurityExpert.detect_hallucinations app_project proj))
  = [(Some (VStr "security_vulnerability"), Some (VStr "high"), Some (VInt 12));
     (Some (VStr "subprocess_vulnerability"), Some (VStr "critical"), Some (VInt 10))].
Proof. vm_compute. reflexivity. Qed.

Lemma filter_map_pattern (g : string -> dict) (l : list string) (pattern : string) :
  (forall q, py.get_eq (g q) "pattern" pattern = String.eqb q pattern) ->
  List.filter (fun f => py.get_eq f "pattern" pattern) (map g l)
  = map g (List.filter (fun q => String.eqb q pattern) l).
Proof.
  intros Hg. induction l as [|q l IH]; [reflexivity|].
  simpl. rewrite Hg, IH. by destruct (String.eqb q pattern).
Qed.

Lemma select_absent (t : string -> bool) (l : list string) (pattern : string) :
  ~ In pattern l ->
  List.filter (fun q => String.eqb q pattern) (List.filter t l) = [].
Proof.
  induction l as [|q l IH]; [reflexivity|].
  intros Hnot. simpl in Hnot. simpl.
  assert (String.eqb q pattern = false) as E.
  { apply String.eqb_neq. tauto. }
  destruct (t q); simpl; rewrite ?E; apply IH; tauto.
Qed.

Lemma select_present (t : string -> bool) (l : list string) (pattern : string) :
  NoDup l -> In pattern l ->
  List.filter (fun q => String.eqb q pattern) (List.filter t l)
  = if t pattern then [pattern] else [].
Proof.
  induction 1 as [|q l Hq Hl IH]; [intros []|].
  rewrite list_elem_of_In in Hq.
  intros [->|Hin]; simpl.
  - destruct (t pattern); simpl.
    + rewrite String.eqb_refl. f_equal. by apply select_absent.
    + by apply select_absent.
  - assert (String.eqb q pattern = false) as E.
    { apply String.eqb_neq. intros ->. contradiction. }
    destruct (t q); simpl; rewrite ?E; by apply IH.
Qed.

Lemma patterns_distinct :
  NoDup SecurityExpert.credential_patterns
  /\ NoDup SecurityExpert.subprocess_patterns
  /\ forall pattern, In pattern SecurityExpert.credential_patterns ->
                     In pattern SecurityExpert.subprocess_patterns -> False.
Proof.
  assert (NoDup all_patterns) as Hnodup.
  { apply (bool_decide_unpack _). vm_compute. reflexivity. }
  apply NoDup_app in Hnodup as (Hcred & Hdisjoint & Hsub).
  repeat split; [assumption..|].
  intros pattern Hc Hs. apply (Hdisjoint pattern); by apply list_elem_of_In.
Qed.

(** C6. What the security expert reports is, file after scanned file, the
    findings of that file.  Among the findings of a file there is exactly
    one for each credential pattern found in its text, of type
    security_vulnerability (a credential leak) and priority high, and
    exactly one for each subprocess pattern found in it, of type
    subprocess_vulnerability (a risk of command injection) and priority
    critical; a pattern that is not found has none. *)
Theorem one_finding_per_matching_pattern (fs : FileSystem) (project_path : Path) :
  hallucinations (SecurityExpert.detect_hallucinations fs project_path)
  = flat_map (fun fc : Path * string => findings_of_file (fst fc) (snd fc))
             (scanned_files fs project_path)
  /\ forall py_file content pattern,
       (In pattern SecurityExpert.credential_patterns ->
        List.filter (fun f => py.get_eq f "pattern" pattern)
                    (findings_of_file py_file content)
        = if re.search pattern content
          then [SecurityExpert.credential_finding py_file content pattern]
          else [])
       /\ (In pattern SecurityExpert.subprocess_patterns ->
           List.filter (fun f => py.get_eq f "pattern" pattern)
                       (findings_of_file py_file content)
           = if re.search pattern content
             then [SecurityExpert.subprocess_finding py_file content pattern]
             else [])
       /\ SecurityExpert.credential_finding py_file content pattern !! "type"
          = Some (VStr "security_vulnerability")
       /\ SecurityExpert.credential_finding py_file content pattern !! "priority"
          = Some (VStr "high")
       /\ SecurityExpert.subprocess_finding py_file content pattern !! "type"
          = Some (VStr "subprocess_vulnerability")
       /\ SecurityExpert.subprocess_finding py_file content pattern !! "priority"
          = Some (VStr "critical").
Proof.
  split; [apply detect_hallucinations_spec|].
  intros py_file content pattern.
  destruct patterns_distinct as (Hcred & Hsub & Hdisjoint).
  assert (forall q, py.get_eq (SecurityExpert.credential_finding py_file content q)
                      "pattern" pattern = String.eqb q pattern) as Hc by reflexivity.
  assert (forall q, py.get_eq (SecurityExpert.subprocess_finding py_file content q)
                      "pattern" pattern = String.eqb q pattern) as Hs by reflexivity.
  repeat split.
  - intros Hin. unfold findings_of_file.
    rewrite List.filter_app, !filter_map_pattern by assumption.
    rewrite (select_present _ _ _ Hcred Hin).
    rewrite select_absent by (intros Hin'; exact (Hdisjoint _ Hin Hin')).
    destruct (re.search pattern content); reflexivity.
  - intros Hin. unfold findings_of_file.
    rewrite List.filter_app, !filter_map_pattern by assumption.
    rewrite (select_present _ _ _ Hsub Hin).
    rewrite select_absent by (intros Hin'; exact (Hdisjoint _ Hin' Hin)).
    destruct (re.search pattern content); reflexivity.
Qed.

Example key_found_once :
  List.filter (fun f => py.get_eq f "pattern" "sk-[a-zA-Z0-9]{48}")
              (hallucinations (SecurityExpert.detect_hallucinations app_project proj))
  = [SecurityExpert.credential_finding (truediv proj "app.py") app_py "sk-[a-zA-Z0-9]{48}"]
  /\ SecurityExpert._find_line_number app_py "sk-[a-zA-Z0-9]{48}" = 12%nat.
Proof. split; vm_compute; reflexivity. Qed.

(** C9. Every finding the security expert reports is either of the
    credential kind with priority high or of the subprocess kind with
    priority critical: its priority is never low or medium, and it weighs 5
    or 10 in the risk score. *)
Theorem security_findings_high_or_critical (fs : FileSystem) (project_path : Path) :
  Forall (fun f =>
            high_or_critical f
            /\ py.get_eq f "priority" "low" = false
            /\ py.get_eq f "priority" "medium" = false
            /\ ((risk_weight f = 5)%Q \/ (risk_weight f = 10)%Q))
         (hallucinations (SecurityExpert.detect_hallucinations fs project_path)).
Proof.
  apply List.Forall_forall. intros f Hf.
  apply in_detect_hallucinations in Hf as (py_file & content & _ & Hf).
  apply in_findings_of_file in Hf as (pattern & _ & [[Hin ->]|[Hin ->]]).
  - split; [left|]; repeat split; eauto.
  - split; [right|]; repeat split; eauto.
Qed.

End SecurityProperties.

(** * Fixes of the security expert *)

Section Fixes.

Context `{Builtins}.

Lemma get_eq_lookup (d : dict) (key s : string) (v : value) :
  d !! key = Some v -> py.get_eq d key s = py.eq_str v s.
Proof. intros E. unfold py.get_eq, py.eq_str. rewrite E. by destruct v. Qed.

Lemma get_eq_absent (d : dict) (key s : string) :
  d !! key = None -> py.get_eq d key s = false.
Proof. intros E. unfold py.get_eq. by rewrite E. Qed.

(** On issues that carry what is read from them, the loop ends with a list
    of fixes: one per issue of a known kind, in order. *)
Lemma suggest_fixes_spec (issues : list dict) :
  forallb fixable issues = true ->
  exists fixes,
    SecurityExpert.suggest_fixes issues = Ok fixes
    /\ map (fun fx => fx !! "issue") fixes
       = map (fun issue => Some (VDict issue)) (List.filter known_kind issues)
    /\ map (fun fx => fx !! "priority") fixes
       = map (fun issue => Some (VStr (fix_priority issue))) (List.filter known_kind issues).
Proof.
  unfold SecurityExpert.suggest_fixes.
  match goal with |- context [fold_left ?f _ _] => set (step := f) end.
  change (mret []) with (Ok (@nil dict)).
  assert (forall done issue,
            fixable issue = true ->
            exists more,
              step (Ok done) issue = Ok (done ++ more)
              /\ map (fun fx => fx !! "issue") more
                 = map (fun issue => Some (VDict issue)) (List.filter known_kind [issue])
              /\ map (fun fx => fx !! "priority") more
                 = map (fun issue => Some (VStr (fix_priority issue)))
                       (List.filter known_kind [issue])) as Hstep.
  { intros done issue Hissue. unfold fixable in Hissue.
    destruct (issue !! "type") as [type|] eqn:Etype; [|discriminate].
    unfold step, known_kind, fix_priority. simpl List.filter.
    rewrite !(get_eq_lookup issue "type" _ type Etype).
    change (Ok done ≫= ?k) with (k done). cbv beta.
    unfold py.getitem. setoid_rewrite Etype.
    change (Ok type ≫= ?k) with (k type). cbv beta.
    destruct (py.eq_str type "security_vulnerability") eqn:Ecred.
    - apply bool_decide_eq_true in Hissue as [pattern Epattern].
      setoid_rewrite Epattern.
      change (Ok pattern ≫= ?k) with (k pattern). cbv beta.
      eexists [_]. split; [reflexivity|].
      simpl. rewrite !(get_eq_lookup issue "type" _ type Etype), Ecred. by split.
    - destruct (py.eq_str type "subprocess_vulnerability") eqn:Esub.
      + eexists [_]. split; [reflexivity|].
        simpl. rewrite !(get_eq_lookup issue "type" _ type Etype), Ecred. by split.
      + exists []. split; [|by split].
        change (Ok done = Ok (done ++ [])). by rewrite app_nil_r. }
  clearbody step.
  assert (forall done,
            forallb fixable issues = true ->
            exists more,
              fold_left step issues (Ok done) = Ok (done ++ more)
              /\ map (fun fx => fx !! "issue") more
                 = map (fun issue => Some (VDict issue)) (List.filter known_kind issues)
              /\ map (fun fx => fx !! "priority") more
                 = map (fun issue => Some (VStr (fix_priority issue)))
                       (List.filter known_kind issues)) as Hloop.
  { induction issues as [|issue issues IH]; intros done Hfix.
    - exists []. by rewrite app_nil_r.
    - simpl in Hfix. apply andb_true_iff in Hfix as [Hissue Hfix].
      destruct (Hstep done issue Hissue) as (first & Efirst & Hi1 & Hp1).
      destruct (IH (done ++ first) Hfix) as (more & Emore & Hi & Hp).
      exists (first ++ more).
      change (fold_left step (issue :: issues) (Ok done))
        with (fold_left step issues (step (Ok done) issue)).
      rewrite Efirst, Emore, <- app_assoc. split; [reflexivity|].
      change (issue :: issues) with ([issue] ++ issues).
      rewrite List.filter_app, !map_app, Hi, Hp, Hi1, Hp1. by split. }
  intros Hfix. destruct (Hloop [] Hfix) as (more & E & Hi & Hp).
  exists more. by rewrite E.
Qed.
(** What the security expert reports it can fix, and the priority of the
    fix is that of the finding. *)
Lemma detected_are_fixable (fs : FileSystem) (project_path : Path) :
  Forall (fun issue =>
            fixable issue = true
            /\ known_kind issue = true
            /\ issue !! "priority" = Some (VStr (fix_priority issue)))
         (hallucinations (SecurityExpert.detect_hallucinations fs project_path)).
Proof.
  apply List.Forall_forall. intros f Hf.
  apply in_detect_hallucinations in Hf as (py_file & content & _ & Hf).
  apply in_findings_of_file in Hf as (pattern & _ & [[Hin ->]|[Hin ->]]);
    repeat split.
Qed.

(** C7, as the code has it.  [suggest_fixes] is a function of the issues: of
    no issues it makes no fixes; of issues that each carry a type (and a
    pattern, when the type is security_vulnerability) it makes, without
    raising, one fix per issue of a known kind, in the order of the issues,
    and none for an issue of another kind; the fix holds its issue, and its
    priority is that of the kind (high for security_vulnerability, critical
    for subprocess_vulnerability), which is the priority of the issue
    itself for every finding the security expert reports. *)
Theorem suggest_fixes_of_wellformed :
  SecurityExpert.suggest_fixes [] = Ok []
  /\ (forall issues,
        forallb fixable issues = true ->
        exists fixes,
          SecurityExpert.suggest_fixes issues = Ok fixes
          /\ map (fun fx => fx !! "issue") fixes
             = map (fun issue => Some (VDict issue)) (List.filter known_kind issues)
          /\ map (fun fx => fx !! "priority") fixes
             = map (fun issue => Some (VStr (fix_priority issue)))
                   (List.filter known_kind issues))
  /\ (forall fs project_path,
        let issues :=
          hallucinations (SecurityExpert.detect_hallucinations fs project_path) in
        exists fixes,
          SecurityExpert.suggest_fixes issues = Ok fixes
          /\ map (fun fx => fx !! "issue") fixes
             = map (fun issue => Some (VDict issue)) issues
          /\ map (fun fx => fx !! "priority") fixes
             = map (fun issue => issue !! "priority") issues).
Proof.
  split; [reflexivity|].
  split; [apply suggest_fixes_spec|].
  intros fs project_path issues.
  pose proof (detected_are_fixable fs project_path) as Hall.
  fold issues in Hall. clearbody issues.
  assert (forallb fixable issues = true) as Hfix.
  { apply forallb_forall. intros issue Hin.
    rewrite List.Forall_forall in Hall. by apply Hall. }
  assert (List.filter known_kind issues = issues) as Hknown.
  { induction Hall as [|issue issues (_ & Hk & _) _ IH]; [reflexivity|].
    simpl. rewrite Hk. f_equal. apply IH.
    simpl in Hfix. apply andb_true_iff in Hfix. tauto. }
  destruct (suggest_fixes_spec issues Hfix) as (fixes & E & Hi & Hp).
  exists fixes. rewrite Hknown in Hi, Hp. split; [assumption|]. split; [assumption|].
  rewrite Hp. clear -Hall.
  induction Hall as [|issue issues (_ & _ & Hprio) _ IH]; [reflexivity|].
  simpl. by rewrite Hprio, IH.
Qed.

End Fixes.

(** Two findings of [app.py] and an issue of a kind without a fix between
    them: two fixes. *)
Lemma suggest_fixes_of_wellformed_witness :
  exists fixes,
    @SecurityExpert.suggest_fixes sample_builtins
      [SecurityExpert.credential_finding (truediv proj "app.py") app_py "sk-[a-zA-Z0-9]{48}";
       {["type" := VStr "style"]};
       SecurityExpert.subprocess_finding (truediv proj "app.py") app_py "os\.system"]
    = Ok fixes
    /\ map (fun fx => fx !! "issue") fixes
       = map (fun issue => Some (VDict issue))
             (List.filter known_kind
                [SecurityExpert.credential_finding (truediv proj "app.py") app_py
                   "sk-[a-zA-Z0-9]{48}";
                 {["type" := VStr "style"]};
                 SecurityExpert.subprocess_finding (truediv proj "app.py") app_py
                   "os\.system"])
    /\ map (fun fx => fx !! "priority") fixes
       = map (fun issue => Some (VStr (fix_priority issue)))
             (List.filter known_kind
                [SecurityExpert.credential_finding (truediv proj "app.py") app_py
                   "sk-[a-zA-Z0-9]{48}";
                 {["type" := VStr "style"]};
                 SecurityExpert.subprocess_finding (truediv proj "app.py") app_py
                   "os\.system"]).
Proof.
  apply (proj1 (proj2 (@suggest_fixes_of_wellformed sample_builtins))).
  vm_compute. reflexivity.
Defined.

(** C7 as it is stated fails: an issue without a type makes [suggest_fixes]
    raise [KeyError], so does a credential issue without a pattern, and the
    fix for a credential issue of priority low names the priority high. *)
Lemma suggest_fixes_raises :
  @SecurityExpert.suggest_fixes sample_builtins [∅] = Raise (KeyError "type")
  /\ @SecurityExpert.suggest_fixes sample_builtins
       [{["type" := VStr "security_vulnerability"]}]
     = Raise (KeyError "pattern")
  /\ (fun r => match r with
               | Ok [fx] => fx !! "priority"
               | _ => None
               end)
       (@SecurityExpert.suggest_fixes sample_builtins
          [list_to_map [("type", VStr "security_vulnerability");
                        ("pattern", VStr "sk-");
                        ("priority", VStr "low")]])
     = Some (VStr "high").
Proof. repeat split. Qed.

(** * A project with nothing to look at *)

Section NoArtifacts.

Context `{Builtins}.

Lemma lookup_from_app (n : node) (rel rel' : list string) :
  lookup_from n (rel ++ rel')
  = match lookup_from n rel with
    | Some m => lookup_from m rel'
    | None => None
    end.
Proof.
  revert n. induction rel as [|c rel IH]; intros n; [reflexivity|].
  simpl. destruct n as [content|es]; [reflexivity|].
  destruct (entry c es); [apply IH|reflexivity].
Qed.

Lemma resolve_child (fs : FileSystem) (p : Path) (rel : list string) :
  resolve fs (child p rel)
  = match resolve fs p with
    | Some n => lookup_from n rel
    | None => None
    end.
Proof.
  unfold resolve, child. simpl.
  destruct (anchor p); [|rewrite app_assoc]; apply lookup_from_app.
Qed.

(** Below a path that does not exist nothing exists. *)
Lemma exists_truediv_missing (fs : FileSystem) (p : Path) (s : string) :
  exists_ fs p = false -> exists_ fs (truediv p s) = false.
Proof.
  unfold exists_, truediv. rewrite resolve_child.
  by destruct (resolve fs p).
Qed.

Lemma rglob_missing (fs : FileSystem) (p : Path) (pattern : string) :
  exists_ fs p = false -> rglob fs p pattern = [].
Proof.
  unfold exists_, rglob. by destruct (resolve fs p).
Qed.

Lemma append_existing_missing (fs : FileSystem) (p : Path)
    (names : list string) (files : list Path) :
  exists_ fs p = false -> append_existing fs p names files = files.
Proof.
  intros Hp. unfold append_existing.
  induction names as [|name names IH]; [reflexivity|].
  simpl. by rewrite exists_truediv_missing.
Qed.

Lemma collect_missing (fs : FileSystem) (p : Path) (pattern : string)
    (names : list string) (files : list Path) :
  exists_ fs p = false -> ArchitectureExpert.collect fs p pattern names files = files.
Proof.
  intros Hp. unfold ArchitectureExpert.collect.
  induction names as [|name names IH]; [reflexivity|].
  simpl. by rewrite exists_truediv_missing.
Qed.

Lemma tool_outputs_missing (fs : FileSystem) (p : Path) :
  exists_ fs p = false -> CodeQualityExpert._find_existing_tool_outputs fs p = [].
Proof.
  intros Hp. unfold CodeQualityExpert._find_existing_tool_outputs.
  rewrite append_existing_missing by assumption.
  cbn [fold_left]. by rewrite !exists_truediv_missing.
Qed.

(** A project root that does not exist holds no artifact of any expert. *)
Lemma relevant_artifacts_missing (e : expert) (fs : FileSystem) (p : Path) :
  exists_ fs p = false -> relevant_artifacts e fs p = [].
Proof.
  intros Hp. destruct e; simpl.
  - by apply rglob_missing.
  - by apply tool_outputs_missing.
  - unfold ArchitectureExpert._find_existing_architecture_data.
    by rewrite !collect_missing.
  - unfold BuildExpert._find_existing_build_data. by rewrite !append_existing_missing.
  - unfold MCPExpert._find_existing_mcp_data. by rewrite !append_existing_missing.
  - unfold ModelExpert._find_existing_model_data. by rewrite !append_existing_missing.
Qed.

(** What every expert answers when it has nothing to look at. *)
Lemma detect_without_artifacts (e : expert) (fs : FileSystem) (p : Path) :
  relevant_artifacts e fs p = [] ->
  detect e fs p
  = {| hallucinations := [];
       confidence := confidence_without_artifacts e;
       recommendations := bootstrap_recommendations e |}.
Proof.
  destruct e; simpl; intros E.
  - unfold SecurityExpert.detect_hallucinations. by rewrite E.
  - unfold CodeQualityExpert.detect_hallucinations. by rewrite E.
  - unfold ArchitectureExpert.detect_hallucinations. by rewrite E.
  - unfold BuildExpert.detect_hallucinations. by rewrite E.
  - unfold MCPExpert.detect_hallucinations. by rewrite E.
  - unfold ModelExpert.detect_hallucinations. by rewrite E.
Qed.

Lemma bootstrap_recommendations_not_empty (e : expert) :
  bootstrap_recommendations e <> [].
Proof. by destruct e. Qed.

(** C1, as the code has it.  An expert that finds none of its artifacts
    below the project root reports no findings and its fixed list of
    recommendations, which is not empty; its confidence is 0.3 for the
    architecture, build, MCP and model experts, and 0.9 for the security
    expert, which has no branch of its own for that case and scores the
    empty list of findings. *)
Theorem nothing_found_result (e : expert) (fs : FileSystem) (project_path : Path) :
  relevant_artifacts e fs project_path = [] ->
  hallucinations (detect e fs project_path) = []
  /\ recommendations (detect e fs project_path) = bootstrap_recommendations e
  /\ bootstrap_recommendations e <> []
  /\ (probes_with_low_confidence e = true ->
      confidence (detect e fs project_path) = 0.3%Q)
  /\ (e = Security ->
      confidence (detect e fs project_path) = BaseExpert.calculate_confidence []
      /\ confidence (detect e fs project_path) = 0.9%Q).
Proof.
  intros E. rewrite (detect_without_artifacts e fs project_path E). simpl.
  split; [reflexivity|]. split; [reflexivity|].
  split; [apply bootstrap_recommendations_not_empty|].
  split; [by destruct e|]. by intros ->.
Qed.

(** C4, as the code has it.  On a project root that does not exist, where
    the operating system answers what the expert asks it (the names are
    within its limits), each expert finds none of its artifacts and
    answers as it does on a project directory that exists and is empty,
    with no findings and its fixed list of recommendations; the confidence
    is 0.3 for the architecture, build, MCP and model experts, and 0.9 for
    the security expert. *)
Theorem missing_root_result (e : expert) (fs : FileSystem) (project_path : Path) :
  exists_ fs project_path = false ->
  forallb accepted (first_probes e project_path) = true ->
  relevant_artifacts e fs project_path = []
  /\ detect e fs project_path = detect e empty_project proj
  /\ hallucinations (detect e fs project_path) = []
  /\ recommendations (detect e fs project_path) = bootstrap_recommendations e
  /\ (probes_with_low_confidence e = true ->
      confidence (detect e fs project_path) = 0.3%Q)
  /\ (e = Security -> confidence (detect e fs project_path) = 0.9%Q).
Proof.
  intros Hmissing _.
  pose proof (relevant_artifacts_missing e fs project_path Hmissing) as E.
  split; [exact E|].
  rewrite (detect_without_artifacts e fs project_path E).
  assert (relevant_artifacts e empty_project proj = []) as E' by (by destruct e).
  rewrite (detect_without_artifacts e empty_project proj E'). simpl.
  split; [reflexivity|]. split; [reflexivity|]. split; [reflexivity|].
  split; [by destruct e|]. by intros ->.
Qed.

End NoArtifacts.

(** The architecture expert on the empty project. *)
Lemma nothing_found_result_witness :
  hallucinations (@detect sample_builtins Architecture empty_project proj) = []
  /\ recommendations (@detect sample_builtins Architecture empty_project proj)
     = bootstrap_recommendations Architecture
  /\ bootstrap_recommendations Architecture <> []
  /\ (probes_with_low_confidence Architecture = true ->
      confidence (@detect sample_builtins Architecture empty_project proj) = 0.3%Q)
  /\ (Architecture = Security ->
      confidence (@detect sample_builtins Architecture empty_project proj)
      = BaseExpert.calculate_confidence []
      /\ confidence (@detect sample_builtins Architecture empty_project proj) = 0.9%Q).
Proof.
  apply (@nothing_found_result sample_builtins Architecture empty_project proj).
  reflexivity.
Defined.

(** C1 as it is stated fails: on the empty project the security expert and
    the code quality expert find none of their artifacts, and report the
    confidences 0.9 and 0.5, neither of which is 0.3. *)
Lemma nothing_found_other_confidence :
  relevant_artifacts Security empty_project proj = []
  /\ confidence (@detect sample_builtins Security empty_project proj) = 0.9%Q
  /\ Qeq_bool 0.9 0.3 = false
  /\ relevant_artifacts CodeQuality empty_project proj = []
  /\ confidence (@detect sample_builtins CodeQuality empty_project proj) = 0.5%Q
  /\ Qeq_bool 0.5 0.3 = false.
Proof. repeat split. Qed.

(** The build expert on a project root that does not exist. *)
Lemma missing_root_result_witness :
  relevant_artifacts Build empty_project missing = []
  /\ @detect sample_builtins Build empty_project missing
     = @detect sample_builtins Build empty_project proj
  /\ hallucinations (@detect sample_builtins Build empty_project missing) = []
  /\ recommendations (@detect sample_builtins Build empty_project missing)
     = bootstrap_recommendations Build
  /\ (probes_with_low_confidence Build = true ->
      confidence (@detect sample_builtins Build empty_project missing) = 0.3%Q)
  /\ (Build = Security ->
      confidence (@detect sample_builtins Build empty_project missing) = 0.9%Q).
Proof.
  apply (@missing_root_result sample_builtins Build empty_project missing);
    reflexivity.
Defined.

(** C4 as it is stated fails: the root [/nowhere] does not exist and the
    names below it are within the limits of the operating system, and on it
    the security expert and the code quality expert report the confidences
    0.9 and 0.5, neither of which is 0.3. *)
Lemma missing_root_other_confidence :
  exists_ empty_project missing = false
  /\ forallb accepted (first_probes Security missing) = true
  /\ forallb accepted (first_probes CodeQuality missing) = true
  /\ confidence (@detect sample_builtins Security empty_project missing) = 0.9%Q
  /\ Qeq_bool 0.9 0.3 = false
  /\ confidence (@detect sample_builtins CodeQuality empty_project missing) = 0.5%Q
  /\ Qeq_bool 0.5 0.3 = false.
Proof. repeat split. Qed.

(** * Every result *)

Section ResultInvariants.

Context `{Builtins}.

Local Open Scope Q_scope.

(** X1. Whatever the expert and the project, the confidence of the result lies
    between 0 and 1 and the result has a recommendation. *)
Theorem detect_result_invariant (e : expert) (fs : FileSystem) (project_path : Path) :
  0 <= confidence (detect e fs project_path) <= 1
  /\ recommendations (detect e fs project_path) <> [].
Proof.
  pose proof calculate_confidence_range as Hrange.
  destruct e; simpl.
  - unfold SecurityExpert.detect_hallucinations. simpl.
    split; [apply Hrange|]. by destruct (fold_left _ _ _).
  - unfold CodeQualityExpert.detect_hallucinations.
    destruct (CodeQualityExpert._find_existing_tool_outputs fs project_path); simpl.
    + split; [lra|discriminate].
    + split; [apply Hrange|]. by destruct (_ ++ _).
  - unfold ArchitectureExpert.detect_hallucinations.
    destruct (ArchitectureExpert._find_existing_architecture_data fs project_path); simpl.
    + split; [lra|discriminate].
    + split; [apply Hrange|]. by destruct (_ ++ _).
  - unfold BuildExpert.detect_hallucinations.
    destruct (BuildExpert._find_existing_build_data fs project_path); simpl.
    + split; [lra|discriminate].
    + split; [apply Hrange|]. by destruct (_ ++ _).
  - unfold MCPExpert.detect_hallucinations.
    destruct (MCPExpert._find_existing_mcp_data fs project_path); simpl.
    + split; [lra|discriminate].
    + split; [apply Hrange|]. by destruct (_ ++ _).
  - unfold ModelExpert.detect_hallucinations.
    destruct (ModelExpert._find_existing_model_data fs project_path); simpl.
    + split; [lra|discriminate].
    + split; [apply Hrange|]. by destruct (_ ++ _).
Qed.

End ResultInvariants.

(** * The two scores *)

Section ScoreOrder.
Local Open Scope Q_scope.

Lemma priority_count_perm (p : string) (l l' : list dict) :
  l ≡ₚ l' -> priority_count p l = priority_count p l'.
Proof.
  induction 1 as [|f l l' _ IH|f g l|l l' l'' _ IH _ IH']; simpl; lia.
Qed.

Lemma risk_weight_bounds (issue : dict) : 1 <= risk_weight issue <= 10.
Proof.
  unfold risk_weight.
  destruct (py.get_eq issue "priority" "critical"); [lra|].
  destruct (py.get_eq issue "priority" "high"); [lra|].
  destruct (py.get_eq issue "priority" "medium"); lra.
Qed.

Lemma weight_sum_app (l1 l2 : list dict) :
  weight_sum (l1 ++ l2) == weight_sum l1 + weight_sum l2.
Proof.
  induction l1 as [|f l1 IH]; simpl; [lra|]. rewrite IH. lra.
Qed.

Lemma weight_sum_nonneg (l : list dict) : 0 <= weight_sum l.
Proof.
  induction l as [|f l IH]; simpl; [lra|].
  pose proof (risk_weight_bounds f). lra.
Qed.

Lemma weight_sum_perm (l l' : list dict) :
  l ≡ₚ l' -> weight_sum l == weight_sum l'.
Proof.
  induction 1 as [|f l l' _ IH|f g l|l l' l'' _ IH _ IH']; simpl; lra.
Qed.

Lemma calculate_risk_score_sum (issues : list dict) :
  SecurityExpert.calculate_risk_score issues == cap10 (weight_sum issues).
Proof.
  destruct issues as [|issue issues]; [|apply calculate_risk_score_cons].
  apply Qeq_bool_eq. vm_compute. reflexivity.
Qed.

Lemma cap10_mono (x y : Q) : x <= y -> cap10 x <= cap10 y.
Proof.
  intros L. unfold cap10.
  destruct (Qlt_le_dec 10 x), (Qlt_le_dec 10 y); lra.
Qed.

(** X2. The order of the findings changes neither score. *)
Theorem scores_ignore_order (l l' : list dict) :
  l ≡ₚ l' ->
  BaseExpert.calculate_confidence l = BaseExpert.calculate_confidence l'
  /\ SecurityExpert.calculate_risk_score l == SecurityExpert.calculate_risk_score l'.
Proof.
  intros Hperm. split.
  - destruct l as [|f l], l' as [|f' l'].
    + reflexivity.
    + by apply Permutation_nil_cons in Hperm.
    + symmetry in Hperm. by apply Permutation_nil_cons in Hperm.
    + unfold BaseExpert.calculate_confidence.
      rewrite !len_filter_priority.
      by rewrite (priority_count_perm "high" _ _ Hperm),
                 (priority_count_perm "critical" _ _ Hperm).
  - rewrite !calculate_risk_score_sum. apply cap10_proper.
    by apply weight_sum_perm.
Qed.

Lemma scores_ignore_order_witness :
  BaseExpert.calculate_confidence [with_priority "high"; with_priority "critical"]
  = BaseExpert.calculate_confidence [with_priority "critical"; with_priority "high"]
  /\ SecurityExpert.calculate_risk_score [with_priority "high"; with_priority "critical"]
     == SecurityExpert.calculate_risk_score
          [with_priority "critical"; with_priority "high"].
Proof.
  apply scores_ignore_order. apply perm_swap.
Defined.

Lemma penalised_zero (h c : nat) :
  penalised h c <= 0 <-> (8 <= h + 2 * c)%nat.
Proof.
  unfold penalised.
  assert (8 <= inject_Z (Z.of_nat h) + 2 * inject_Z (Z.of_nat c)
          <-> (8 <= h + 2 * c)%nat) as <-.
  { change 8 with (inject_Z 8). change 2 with (inject_Z 2).
    rewrite <- inject_Z_mult, <- inject_Z_plus, <- Zle_Qle. lia. }
  split; intros; lra.
Qed.

(** X3. The confidence never passes 0.9, which only the empty list reaches: a
    list that is not empty stays at or below 0.8, so the ceiling of 1.0 is
    never met; and it is 0 exactly when the high findings and twice the
    critical findings number eight or more. *)
Theorem calculate_confidence_ceiling_and_floor :
  (forall l, BaseExpert.calculate_confidence l <= 0.9)
  /\ (forall f l, BaseExpert.calculate_confidence (f :: l) <= 0.8)
  /\ (forall l, BaseExpert.calculate_confidence l == 0.9 <-> l = [])
  /\ (forall f l,
        BaseExpert.calculate_confidence (f :: l) == 0
        <-> (8 <= priority_count "high" (f :: l)
                  + 2 * priority_count "critical" (f :: l))%nat).
Proof.
  split.
  { intros [|f l]; [simpl; lra|].
    pose proof (calculate_confidence_cons_le_base f l). lra. }
  split; [apply calculate_confidence_cons_le_base|].
  split.
  { intros [|f l]; split; try reflexivity; try discriminate.
    intros E. pose proof (calculate_confidence_cons_le_base f l). lra. }
  intros f l. rewrite calculate_confidence_cons, <- penalised_zero.
  destruct (clamp01_spec (penalised (priority_count "high" (f :: l))
                                    (priority_count "critical" (f :: l))))
    as [[C ->]|[[C ->]|[C ->]]]; split; intros; lra.
Qed.

(** X4. The risk score lies between 0 and 10, is 0 for the empty list only and
    at least 1 otherwise, is 10 as soon as one issue is critical, and
    never falls when an issue is added. *)
Theorem calculate_risk_score_bounds :
  (forall l, 0 <= SecurityExpert.calculate_risk_score l <= 10)
  /\ (forall l, SecurityExpert.calculate_risk_score l == 0 <-> l = [])
  /\ (forall f l, 1 <= SecurityExpert.calculate_risk_score (f :: l))
  /\ (forall f l,
        In f l -> py.get_eq f "priority" "critical" = true ->
        SecurityExpert.calculate_risk_score l == 10)
  /\ (forall l1 l2 f,
        SecurityExpert.calculate_risk_score (l1 ++ l2)
        <= SecurityExpert.calculate_risk_score (l1 ++ f :: l2)).
Proof.
  assert (forall f l, 1 <= SecurityExpert.calculate_risk_score (f :: l)) as Hone.
  { intros f l. rewrite calculate_risk_score_sum. simpl.
    pose proof (risk_weight_bounds f). pose proof (weight_sum_nonneg l).
    unfold cap10. destruct (Qlt_le_dec 10 _); lra. }
  split.
  { intros l. rewrite calculate_risk_score_sum.
    pose proof (weight_sum_nonneg l). unfold cap10.
    destruct (Qlt_le_dec 10 _); lra. }
  split.
  { intros [|f l]; split; try reflexivity; try discriminate.
    intros E. pose proof (Hone f l). lra. }
  split; [exact Hone|].
  split.
  { intros f l Hin Hcrit. rewrite calculate_risk_score_sum.
    apply in_split in Hin as (l1 & l2 & ->).
    rewrite (cap10_proper _ _ (weight_sum_app l1 (f :: l2))). simpl.
    assert (risk_weight f = 10) as E by (unfold risk_weight; by rewrite Hcrit).
    rewrite E.
    pose proof (weight_sum_nonneg l1). pose proof (weight_sum_nonneg l2).
    unfold cap10. destruct (Qlt_le_dec 10 _); lra. }
  intros l1 l2 f. rewrite !calculate_risk_score_sum.
  apply cap10_mono. rewrite !weight_sum_app. simpl.
  pose proof (risk_weight_bounds f). lra.
Qed.

End ScoreOrder.

(** * The security scan *)

Section SecurityScan.

Lemma split_length (s : string) :
  length (py.split "010" s) = S (newlines s).
Proof.
  induction s as [|c s IH]; [reflexivity|].
  simpl. destruct (Ascii.eqb c "010"); simpl; [by rewrite IH|].
  destruct (py.split "010" s); simpl in *; lia.
Qed.

(** X5. The line number is at most the number of lines of the text, which is
    one more than the number of its line feeds. *)
Theorem find_line_number_bound (content pattern : string) :
  (SecurityExpert._find_line_number content pattern <= S (newlines content))%nat.
Proof.
  pose proof (find_line_number_spec content pattern) as Hspec.
  rewrite <- split_length.
  destruct (SecurityExpert._find_line_number content pattern) as [|k]; [lia|].
  destruct Hspec as [(line & Hline & _) _].
  apply lookup_lt_Some in Hline. lia.
Qed.

Lemma split_cons_line (line content : string) :
  first_line line = line ->
  py.split "010" (line +:+ nl +:+ content) = line :: py.split "010" content.
Proof.
  induction line as [|c line IH]; intros Hline; [reflexivity|].
  simpl in Hline. simpl.
  destruct (Ascii.eqb c "010"); [discriminate|].
  injection Hline as Hline. by rewrite (IH Hline).
Qed.

Lemma first_match_from_shift (i : nat) (pattern : string) (lines : list string) :
  SecurityExpert.first_match_from (S (S i)) pattern lines
  = match SecurityExpert.first_match_from (S i) pattern lines with
    | O => O
    | S k => S (S k)
    end.
Proof.
  revert i. induction lines as [|l lines IH]; intros i; [reflexivity|].
  simpl. destruct (re.search pattern l); [reflexivity|]. apply IH.
Qed.

(** X6. A line put in front of a text is line 1 when the pattern is found in
    it; otherwise every line number moves up by one, and 0 stays 0. *)
Theorem find_line_number_after_a_line (line content pattern : string) :
  first_line line = line ->
  SecurityExpert._find_line_number (line +:+ nl +:+ content) pattern
  = if re.search pattern line then 1%nat
    else match SecurityExpert._find_line_number content pattern with
         | O => O
         | S k => S (S k)
         end.
Proof.
  intros Hline. unfold SecurityExpert._find_line_number.
  rewrite (split_cons_line line content Hline). simpl.
  destruct (re.search pattern line); [reflexivity|].
  apply first_match_from_shift.
Qed.

Lemma find_line_number_after_a_line_witness :
  SecurityExpert._find_line_number ("import os" +:+ nl +:+ app_py) "os\.system"
  = if re.search "os\.system" "import os" then 1%nat
    else match SecurityExpert._find_line_number app_py "os\.system" with
         | O => O
         | S k => S (S k)
         end.
Proof.
  apply (find_line_number_after_a_line "import os" app_py "os\.system").
  reflexivity.
Defined.

Lemma in_scanned_files (fs : FileSystem) (project_path py_file : Path) (content : string) :
  In (py_file, content) (scanned_files fs project_path)
  <-> In py_file (rglob fs project_path "*.py") /\ read_text fs py_file = Some content.
Proof.
  unfold scanned_files. rewrite <- !list_elem_of_In, list_elem_of_omap.
  split.
  - intros (q & Hq & E). destruct (read_text fs q) as [c|] eqn:Eq; [|discriminate].
    simpl in E. injection E as <- <-. by split.
  - intros [Hin E]. exists py_file. split; [assumption|]. by rewrite E.
Qed.

(** X7. Nothing is missed: a pattern found in the text of a Python file that can
    be read is reported for that file, whatever else the project holds. *)
Theorem every_match_is_reported (fs : FileSystem) (project_path py_file : Path)
    (content pattern : string) :
  In py_file (rglob fs project_path "*.py") ->
  read_text fs py_file = Some content ->
  re.search pattern content = true ->
  (In pattern SecurityExpert.credential_patterns ->
   In (SecurityExpert.credential_finding py_file content pattern)
      (hallucinations (SecurityExpert.detect_hallucinations fs project_path)))
  /\ (In pattern SecurityExpert.subprocess_patterns ->
      In (SecurityExpert.subprocess_finding py_file content pattern)
         (hallucinations (SecurityExpert.detect_hallucinations fs project_path))).
Proof.
  intros Hfile Hread Hfound.
  assert (In (py_file, content) (scanned_files fs project_path)) as Hscan.
  { by apply in_scanned_files. }
  rewrite detect_hallucinations_spec.
  split; intros Hin; apply in_flat_map; exists (py_file, content);
    (split; [assumption|]); simpl; unfold findings_of_file; apply in_app_iff.
  - left. apply in_map, filter_In. by split.
  - right. apply in_map, filter_In. by split.
Qed.

Lemma every_match_is_reported_witness :
  (In "sk-[a-zA-Z0-9]{48}" SecurityExpert.credential_patterns ->
   In (SecurityExpert.credential_finding (truediv proj "app.py") app_py "sk-[a-zA-Z0-9]{48}")
      (hallucinations (SecurityExpert.detect_hallucinations app_project proj)))
  /\ (In "sk-[a-zA-Z0-9]{48}" SecurityExpert.subprocess_patterns ->
      In (SecurityExpert.subprocess_finding (truediv proj "app.py") app_py
            "sk-[a-zA-Z0-9]{48}")
         (hallucinations (SecurityExpert.detect_hallucinations app_project proj))).
Proof.
  apply (every_match_is_reported app_project proj (truediv proj "app.py") app_py).
  - vm_compute. left. reflexivity.
  - reflexivity.
  - vm_compute. reflexivity.
Defined.

Lemma match_alnum_app (n : nat) (s s' t : string) :
  re.match_alnum n s = Some s' -> re.match_alnum n (s +:+ t) = Some (s' +:+ t).
Proof.
  revert s. induction n as [|n IH]; intros s; simpl.
  - by intros [= ->].
  - destruct s as [|c s]; [discriminate|]. simpl.
    destruct (re.is_alnum c); [apply IH|discriminate].
Qed.

Lemma match_here_app (r : list re.atom) (s t : string) :
  re.match_here r s = true -> re.match_here r (s +:+ t) = true.
Proof.
  revert s. induction r as [|a r IH]; intros s; [reflexivity|].
  destruct a as [c|n]; simpl.
  - destruct s as [|d s]; [discriminate|]. simpl.
    intros E. apply andb_true_iff in E as [-> E]. by apply IH.
  - destruct (re.match_alnum n s) as [s'|] eqn:E; [|discriminate].
    rewrite (match_alnum_app n s s' t E). apply IH.
Qed.

Lemma search_atoms_app_r (r : list re.atom) (s t : string) :
  re.search_atoms r s = true -> re.search_atoms r (s +:+ t) = true.
Proof.
  induction s as [|c s IH].
  - intros E. simpl in E. rewrite orb_false_r in E.
    pose proof (match_here_app r "" t E) as E'.
    change (re.match_here r t = true) in E'.
    change ("" +:+ t) with t.
    destruct t; simpl; by rewrite E'.
  - intros E. simpl in E. apply orb_true_iff in E as [E|E].
    + pose proof (match_here_app r (String c s) t E) as E'.
      change (String c s +:+ t) with (String c (s +:+ t)) in *.
      simpl. by rewrite E'.
    + change (String c s +:+ t) with (String c (s +:+ t)).
      simpl. rewrite (IH E). apply orb_true_r.
Qed.

Lemma search_atoms_app_l (r : list re.atom) (pre s : string) :
  re.search_atoms r s = true -> re.search_atoms r (pre +:+ s) = true.
Proof.
  intros E. induction pre as [|c pre IH]; [exact E|].
  change (String c pre +:+ s) with (String c (pre +:+ s)).
  simpl. rewrite IH. apply orb_true_r.
Qed.

Lemma filter_length_le {A} (t t' : A -> bool) (l : list A) :
  (forall x, t x = true -> t' x = true) ->
  (length (List.filter t l) <= length (List.filter t' l))%nat.
Proof.
  intros Himp. induction l as [|x l IH]; [reflexivity|].
  simpl. destruct (t x) eqn:E.
  - rewrite (Himp x E). simpl. lia.
  - destruct (t' x); simpl; lia.
Qed.

(** X8. Text put before and after a text hides nothing: a pattern found in the
    text is found in the longer text, which has at least as many findings. *)
Theorem more_text_hides_nothing (pre content post : string) :
  (forall pattern,
     re.search pattern content = true ->
     re.search pattern (pre +:+ content +:+ post) = true)
  /\ (forall py_file,
        length (findings_of_file py_file content)
        <= length (findings_of_file py_file (pre +:+ content +:+ post)))%nat.
Proof.
  assert (forall pattern,
            re.search pattern content = true ->
            re.search pattern (pre +:+ content +:+ post) = true) as Hmore.
  { intros pattern. unfold re.search.
    destruct (re.compile pattern) as [r|]; [|discriminate].
    intros E. by apply search_atoms_app_l, search_atoms_app_r. }
  split; [exact Hmore|].
  intros py_file. unfold findings_of_file.
  rewrite !length_app, !length_map.
  pose proof (filter_length_le (fun pattern => re.search pattern content)
                (fun pattern => re.search pattern (pre +:+ content +:+ post))
                SecurityExpert.credential_patterns Hmore).
  pose proof (filter_length_le (fun pattern => re.search pattern content)
                (fun pattern => re.search pattern (pre +:+ content +:+ post))
                SecurityExpert.subprocess_patterns Hmore).
  lia.
Qed.

Local Open Scope Q_scope.

Lemma findings_high_or_critical (fs : FileSystem) (project_path : Path) :
  Forall (fun f =>
            (py.get_eq f "priority" "high" = true
             /\ py.get_eq f "priority" "critical" = false)
            \/ (py.get_eq f "priority" "high" = false
                /\ py.get_eq f "priority" "critical" = true))
         (hallucinations (SecurityExpert.detect_hallucinations fs project_path)).
Proof.
  apply List.Forall_forall. intros f Hf.
  apply in_detect_hallucinations in Hf as (py_file & content & _ & Hf).
  apply in_findings_of_file in Hf as (pattern & _ & [[_ ->]|[_ ->]]);
    [left|right]; by split.
Qed.

Lemma counts_of_high_or_critical (l : list dict) :
  Forall (fun f =>
            (py.get_eq f "priority" "high" = true
             /\ py.get_eq f "priority" "critical" = false)
            \/ (py.get_eq f "priority" "high" = false
                /\ py.get_eq f "priority" "critical" = true)) l ->
  (priority_count "high" l + priority_count "critical" l = length l)%nat.
Proof.
  induction 1 as [|f l [[Hh Hc]|[Hh Hc]] _ IH]; simpl; rewrite ?Hh, ?Hc; lia.
Qed.

Lemma clamp01_le (x b : Q) : x <= b -> 0 <= b -> clamp01 x <= b.
Proof.
  intros Hx Hb.
  destruct (clamp01_spec x) as [[C ->]|[[C ->]|[C ->]]]; lra.
Qed.

(** X9. What the security expert reports and its two scores go together: every
    finding is counted as high or as critical; with no finding the
    confidence is 0.9 and the risk 0; with a finding the confidence is at
    most that of one high finding, 0.8 - 0.1, and the risk at least 5; with
    a finding of the subprocess kind the confidence is at most that of one
    critical finding, 0.8 - 0.2, and the risk 10. *)
Theorem security_scores (fs : FileSystem) (project_path : Path) :
  let r := SecurityExpert.detect_hallucinations fs project_path in
  (priority_count "high" (hallucinations r) + priority_count "critical" (hallucinations r)
   = length (hallucinations r))%nat
  /\ (hallucinations r = [] ->
      confidence r = 0.9
      /\ SecurityExpert.calculate_risk_score (hallucinations r) = 0.0)
  /\ (hallucinations r <> [] ->
      confidence r <= 0.8 - 0.1
      /\ 5 <= SecurityExpert.calculate_risk_score (hallucinations r))
  /\ (forall f, In f (hallucinations r) ->
                f !! "type" = Some (VStr "subprocess_vulnerability") ->
                confidence r <= 0.8 - 0.2
                /\ SecurityExpert.calculate_risk_score (hallucinations r) == 10).
Proof.
  intros r.
  pose proof (findings_high_or_critical fs project_path) as Hall.
  pose proof (counts_of_high_or_critical _ Hall) as Hcount.
  assert (forall g, In g (hallucinations r) ->
                    g !! "type" = Some (VStr "subprocess_vulnerability") ->
                    py.get_eq g "priority" "critical" = true) as Hsub.
  { intros g Hg Htype.
    apply in_detect_hallucinations in Hg as (py_file & content & _ & Hg).
    apply in_findings_of_file in Hg as (pattern & _ & [[_ ->]|[_ ->]]);
      [discriminate|reflexivity]. }
  fold r in Hall, Hcount.
  change (confidence r) with (BaseExpert.calculate_confidence (hallucinations r)).
  destruct (hallucinations r) as [|f l].
  - split; [reflexivity|]. split; [by split|]. split; [by intros []|]. by intros f [].
  - split; [exact Hcount|]. split; [discriminate|].
    split.
    + intros _. split.
      * rewrite calculate_confidence_cons. apply clamp01_le; [|lra].
        unfold penalised.
        assert (1 <= inject_Z (Z.of_nat (priority_count "high" (f :: l)))
                     + inject_Z (Z.of_nat (priority_count "critical" (f :: l)))).
        { change 1 with (inject_Z 1).
          rewrite <- inject_Z_plus, <- Zle_Qle. simpl length in Hcount. lia. }
        assert (0 <= inject_Z (Z.of_nat (priority_count "critical" (f :: l)))).
        { change 0 with (inject_Z 0). rewrite <- Zle_Qle. lia. }
        lra.
      * rewrite calculate_risk_score_sum. simpl.
        assert (5 <= risk_weight f) as Hw.
        { apply Forall_cons in Hall as [[[Hh Hc]|[Hh Hc]] _];
            unfold risk_weight; rewrite Hc, ?Hh; lra. }
        pose proof (weight_sum_nonneg l).
        unfold cap10. destruct (Qlt_le_dec 10 _); lra.
    + intros g Hg Htype.
      pose proof (Hsub g Hg Htype) as Hcrit.
      apply in_split in Hg as (l1 & l2 & Eg).
      split.
      * rewrite calculate_confidence_cons. apply clamp01_le; [|lra].
        unfold penalised.
        assert (1 <= inject_Z (Z.of_nat (priority_count "critical" (f :: l)))).
        { change 1 with (inject_Z 1). rewrite <- Zle_Qle.
          rewrite Eg, priority_count_app. simpl. rewrite Hcrit. lia. }
        assert (0 <= inject_Z (Z.of_nat (priority_count "high" (f :: l)))).
        { change 0 with (inject_Z 0). rewrite <- Zle_Qle. lia. }
        lra.
      * rewrite calculate_risk_score_sum, Eg.
        rewrite (cap10_proper _ _ (weight_sum_app l1 (g :: l2))). simpl.
        assert (risk_weight g = 10) as Ew by (unfold risk_weight; by rewrite Hcrit).
        rewrite Ew.
        pose proof (weight_sum_nonneg l1). pose proof (weight_sum_nonneg l2).
        unfold cap10. destruct (Qlt_le_dec 10 _); lra.
Qed.

End SecurityScan.

(** * The loops of [suggest_fixes] *)

Section FixLoops.

Context `{Builtins}.

(** A loop that appends to the fixes made so far what it makes of one issue
    works through a list of issues piece by piece. *)
Lemma fold_fixes (step : result (list dict) -> dict -> result (list dict)) :
  (forall acc issue,
     step acc issue
     = fixes ← acc; more ← step (Ok []) issue; mret (fixes ++ more)) ->
  forall issues acc,
    fold_left step issues acc
    = fixes ← acc; more ← fold_left step issues (Ok []); mret (fixes ++ more).
Proof.
  intros Hstep. induction issues as [|issue issues IH]; intros acc.
  - destruct acc as [fixes|e]; simpl; [|reflexivity].
    unfold mret, result_ret. by rewrite app_nil_r.
  - simpl. rewrite IH, (IH (step (Ok []) issue)), (Hstep acc issue).
    destruct acc as [fixes|e]; simpl; [|reflexivity].
    destruct (step (Ok []) issue) as [first|e]; simpl; [|reflexivity].
    destruct (fold_left step issues (Ok [])) as [more|e]; simpl; [|reflexivity].
    unfold mret, result_ret. by rewrite app_assoc.
Qed.

Lemma fold_fixes_app (step : result (list dict) -> dict -> result (list dict)) :
  (forall acc issue,
     step acc issue
     = fixes ← acc; more ← step (Ok []) issue; mret (fixes ++ more)) ->
  forall l1 l2,
    fold_left step (l1 ++ l2) (Ok [])
    = first ← fold_left step l1 (Ok []);
      more ← fold_left step l2 (Ok []);
      mret (first ++ more).
Proof.
  intros Hstep l1 l2. rewrite fold_left_app. apply (fold_fixes step Hstep).
Qed.

Lemma append_fixes_app (rule : dict -> result (option dict)) (l1 l2 : list dict) :
  append_fixes rule (l1 ++ l2)
  = first ← append_fixes rule l1; more ← append_fixes rule l2; mret (first ++ more).
Proof.
  unfold append_fixes. apply fold_fixes_app.
  intros [fixes|e] issue; simpl; [|reflexivity].
  destruct (rule issue) as [[d|]|e]; simpl; try reflexivity.
  unfold mret, result_ret. by rewrite app_nil_r.
Qed.

Lemma security_suggest_fixes_app (l1 l2 : list dict) :
  SecurityExpert.suggest_fixes (l1 ++ l2)
  = first ← SecurityExpert.suggest_fixes l1;
    more ← SecurityExpert.suggest_fixes l2;
    mret (first ++ more).
Proof.
  unfold SecurityExpert.suggest_fixes. apply fold_fixes_app.
  intros [fixes|e] issue; simpl; [|reflexivity].
  destruct (py.getitem issue "type") as [type|e]; simpl; [|reflexivity].
  destruct (py.eq_str type "security_vulnerability").
  - destruct (py.getitem issue "pattern") as [pattern|e]; simpl; reflexivity.
  - destruct (py.eq_str type "subprocess_vulnerability"); simpl; [reflexivity|].
    unfold mret, result_ret. by rewrite app_nil_r.
Qed.

(** X10. The fixes of two lists of issues one after the other are the fixes of
    the first followed by the fixes of the second, for every expert; when
    either raises, so does the whole, with the error of the first that
    does. *)
Theorem suggest_fixes_app (e : expert) (l1 l2 : list dict) :
  suggest_fixes e (l1 ++ l2)
  = first ← suggest_fixes e l1; more ← suggest_fixes e l2; mret (first ++ more).
Proof.
  destruct e; simpl;
    [apply security_suggest_fixes_app | apply append_fixes_app ..].
Qed.

Lemma suggest_fixes_unfixable (bad : dict) :
  fixable bad = false ->
  SecurityExpert.suggest_fixes [bad] = Raise (KeyError (missing_key bad)).
Proof.
  unfold fixable, missing_key, SecurityExpert.suggest_fixes. simpl.
  unfold py.getitem.
  destruct (bad !! "type") as [type|]; simpl; [|reflexivity].
  destruct (py.eq_str type "security_vulnerability"); [|discriminate].
  intros E. apply bool_decide_eq_false in E.
  destruct (bad !! "pattern") as [pattern|]; simpl; [|reflexivity].
  contradiction E. by eexists.
Qed.

Lemma first_unfixable (issues : list dict) :
  forallb fixable issues = false ->
  exists l1 bad l2,
    issues = l1 ++ bad :: l2 /\ forallb fixable l1 = true /\ fixable bad = false.
Proof.
  induction issues as [|issue issues IH]; [discriminate|].
  simpl. destruct (fixable issue) eqn:E; simpl.
  - intros Hrest. destruct (IH Hrest) as (l1 & bad & l2 & -> & H1 & Hbad).
    exists (issue :: l1), bad, l2. simpl. by rewrite E.
  - intros _. by exists [], issue, issues.
Qed.

(** X11. [SecurityExpert.suggest_fixes] raises exactly when an issue lacks what
    is read from it: its type, or its pattern when the type is
    security_vulnerability.  The error is the [KeyError] of the key missing
    from the first such issue, whatever follows it; and there are never
    more fixes than issues. *)
Theorem suggest_fixes_raises_on_missing_key :
  (forall issues,
     forallb fixable issues = true
     <-> exists fixes, SecurityExpert.suggest_fixes issues = Ok fixes)
  /\ (forall l1 bad l2,
        forallb fixable l1 = true -> fixable bad = false ->
        SecurityExpert.suggest_fixes (l1 ++ bad :: l2)
        = Raise (KeyError (missing_key bad)))
  /\ (forall issues fixes,
        SecurityExpert.suggest_fixes issues = Ok fixes ->
        (length fixes <= length issues)%nat).
Proof.
  assert (forall l1 bad l2,
            forallb fixable l1 = true -> fixable bad = false ->
            SecurityExpert.suggest_fixes (l1 ++ bad :: l2)
            = Raise (KeyError (missing_key bad))) as Hraise.
  { intros l1 bad l2 H1 Hbad.
    rewrite security_suggest_fixes_app.
    destruct (suggest_fixes_spec l1 H1) as (first & -> & _). simpl.
    change (bad :: l2) with ([bad] ++ l2).
    rewrite security_suggest_fixes_app, (suggest_fixes_unfixable bad Hbad).
    reflexivity. }
  assert (forall issues,
            forallb fixable issues = true
            <-> exists fixes, SecurityExpert.suggest_fixes issues = Ok fixes) as Hok.
  { intros issues. split.
    - intros Hfix. destruct (suggest_fixes_spec issues Hfix) as (fixes & E & _).
      by exists fixes.
    - intros [fixes E]. destruct (forallb fixable issues) eqn:Hfix; [reflexivity|].
      destruct (first_unfixable issues Hfix) as (l1 & bad & l2 & -> & H1 & Hbad).
      rewrite (Hraise l1 bad l2 H1 Hbad) in E. discriminate. }
  split; [exact Hok|]. split; [exact Hraise|].
  intros issues fixes E.
  assert (forallb fixable issues = true) as Hfix by (apply Hok; by exists fixes).
  destruct (suggest_fixes_spec issues Hfix) as (fixes' & E' & Hissue & _).
  rewrite E in E'. injection E' as <-.
  apply (f_equal length) in Hissue. rewrite !length_map in Hissue.
  rewrite Hissue. apply List.filter_length_le.
Qed.

End FixLoops.

Lemma suggest_fixes_raises_on_missing_key_witness :
  @SecurityExpert.suggest_fixes sample_builtins
    ([SecurityExpert.subprocess_finding (truediv proj "app.py") app_py "os\.system"]
     ++ {["type" := VStr "security_vulnerability"]} :: [∅])
  = Raise (KeyError (missing_key {["type" := VStr "security_vulnerability"]})).
Proof.
  apply (proj1 (proj2 (@suggest_fixes_raises_on_missing_key sample_builtins)));
    reflexivity.
Defined.

(** * The findings of the probing experts *)

Section Probes.

Context `{Builtins}.

Local Open Scope Q_scope.

Ltac probe_cases :=
  repeat match goal with
         | |- context [if ?c then _ else _] => destruct c
         | |- context [match ?x with Some _ => _ | None => _ end] => destruct x
         end.

Ltac probe_solve :=
  try assumption;
  try (apply Forall_app; split; [assumption|]);
  repeat constructor; unfold probe_issue; repeat eexists; simpl; auto 10.

Lemma fold_left_Forall {A} (P : dict -> Prop) (f : list dict -> A -> list dict)
    (l : list A) (acc : list dict) :
  (forall acc x, Forall P acc -> Forall P (f acc x)) ->
  Forall P acc -> Forall P (fold_left f l acc).
Proof.
  intros Hstep. revert acc. induction l as [|x l IH]; intros acc Hacc; [exact Hacc|].
  simpl. apply IH, Hstep, Hacc.
Qed.

Lemma fold_left_length_le {A} (f : list dict -> A -> list dict)
    (l : list A) (acc : list dict) :
  (forall acc x, (length (f acc x) <= S (length acc))%nat) ->
  (length (fold_left f l acc) <= length acc + length l)%nat.
Proof.
  intros Hstep. revert acc. induction l as [|x l IH]; intros acc; simpl; [lia|].
  specialize (IH (f acc x)). specialize (Hstep acc x). lia.
Qed.

Lemma probe_issue_weaken (kinds kinds' priorities priorities' : list string) (f : dict) :
  (forall x, In x kinds -> In x kinds') ->
  (forall x, In x priorities -> In x priorities') ->
  probe_issue kinds priorities f -> probe_issue kinds' priorities' f.
Proof.
  intros Hk Hp (type & file & description & priority & tool & source & -> & Ht & Hpr).
  unfold probe_issue. repeat eexists; auto.
Qed.

Lemma probe_count (p : string) (kinds priorities : list string) (l : list dict) :
  Forall (probe_issue kinds priorities) l -> ~ In p priorities ->
  priority_count p l = 0%nat.
Proof.
  intros Hall Hp.
  induction Hall as [|f l (type & file & description & priority & tool & source
                            & -> & _ & Hpr) _ IH]; [reflexivity|].
  simpl. rewrite IH.
  change (py.get_eq (issue_dict type file description priority tool source) "priority" p)
    with (String.eqb priority p).
  destruct (String.eqb_spec priority p) as [->|]; [contradiction|reflexivity].
Qed.

Lemma priority_count_le_length (p : string) (l : list dict) :
  (priority_count p l <= length l)%nat.
Proof.
  induction l as [|f l IH]; simpl; [lia|].
  destruct (py.get_eq f "priority" p); lia.
Qed.

Lemma confidence_without_penalty (f : dict) (l : list dict) :
  priority_count "high" (f :: l) = 0%nat ->
  priority_count "critical" (f :: l) = 0%nat ->
  BaseExpert.calculate_confidence (f :: l) == 0.8.
Proof.
  intros Hh Hc. rewrite calculate_confidence_cons, Hh, Hc.
  apply Qeq_bool_eq. vm_compute. reflexivity.
Qed.

Lemma confidence_with_few_high (f : dict) (l : list dict) :
  (priority_count "high" (f :: l) <= 3)%nat ->
  priority_count "critical" (f :: l) = 0%nat ->
  0.5 <= BaseExpert.calculate_confidence (f :: l).
Proof.
  intros Hh Hc. rewrite calculate_confidence_cons, Hc.
  assert (0.5 <= penalised (priority_count "high" (f :: l)) 0) as Hle.
  { unfold penalised.
    assert (inject_Z (Z.of_nat (priority_count "high" (f :: l))) <= 3).
    { change 3 with (inject_Z 3). rewrite <- Zle_Qle. lia. }
    change (inject_Z (Z.of_nat 0)) with 0. lra. }
  destruct (clamp01_spec (penalised (priority_count "high" (f :: l)) 0))
    as [[C ->]|[[C ->]|[C ->]]]; lra.
Qed.

(** *** The issues each analysis appends *)

Lemma build_config_issues (fs : FileSystem) (p : Path) :
  Forall (probe_issue ["build_config_issue"] ["medium"])
         (BuildExpert._analyze_build_config fs p).
Proof.
  unfold BuildExpert._analyze_build_config. probe_cases; probe_solve.
Qed.

Lemma build_log_issues (fs : FileSystem) (p : Path) :
  Forall (probe_issue ["build_failure"] ["high"]) (BuildExpert._analyze_build_logs fs p)
  /\ (length (BuildExpert._analyze_build_logs fs p) <= 3)%nat.
Proof.
  unfold BuildExpert._analyze_build_logs. split.
  - apply fold_left_Forall; [|constructor].
    intros acc x Hacc. probe_cases; probe_solve.
  - match goal with |- context [fold_left ?f ?l ?a] =>
      pose proof (fold_left_length_le f l a) as Hlen end.
    simpl length in Hlen. apply Hlen.
    intros acc x. probe_cases; rewrite ?length_app; simpl; lia.
Qed.

Lemma mcp_config_issues (fs : FileSystem) (p : Path) :
  Forall (probe_issue ["mcp_config_issue"] ["medium"])
         (MCPExpert._analyze_mcp_config fs p).
Proof.
  unfold MCPExpert._analyze_mcp_config.
  apply fold_left_Forall; [|constructor].
  intros acc x Hacc. probe_cases; probe_solve.
Qed.

Lemma mcp_log_issues (fs : FileSystem) (p : Path) :
  Forall (probe_issue ["mcp_failure"] ["high"]) (MCPExpert._analyze_mcp_logs fs p)
  /\ (length (MCPExpert._analyze_mcp_logs fs p) <= 3)%nat.
Proof.
  unfold MCPExpert._analyze_mcp_logs. split.
  - apply fold_left_Forall; [|constructor].
    intros acc x Hacc. probe_cases; probe_solve.
  - match goal with |- context [fold_left ?f ?l ?a] =>
      pose proof (fold_left_length_le f l a) as Hlen end.
    simpl length in Hlen. apply Hlen.
    intros acc x. probe_cases; rewrite ?length_app; simpl; lia.
Qed.

Lemma model_config_issues (fs : FileSystem) (p : Path) :
  Forall (probe_issue ["model_config_issue"] ["medium"])
         (ModelExpert._analyze_model_config fs p).
Proof.
  unfold ModelExpert._analyze_model_config.
  apply fold_left_Forall; [|constructor].
  intros acc x Hacc. probe_cases; probe_solve.
Qed.

Lemma model_output_issues (fs : FileSystem) (p : Path) :
  Forall (probe_issue ["model_failure"] ["high"]) (ModelExpert._analyze_model_outputs fs p)
  /\ (length (ModelExpert._analyze_model_outputs fs p) <= 3)%nat.
Proof.
  unfold ModelExpert._analyze_model_outputs. split.
  - apply fold_left_Forall; [|constructor].
    intros acc x Hacc. probe_cases; probe_solve.
  - match goal with |- context [fold_left ?f ?l ?a] =>
      pose proof (fold_left_length_le f l a) as Hlen end.
    simpl length in Hlen. apply Hlen.
    intros acc x. probe_cases; rewrite ?length_app; simpl; lia.
Qed.

Lemma architecture_doc_issues (fs : FileSystem) (p : Path) :
  Forall (probe_issue ["documentation_issue"] ["medium"])
         (ArchitectureExpert._analyze_architecture_docs fs p).
Proof.
  unfold ArchitectureExpert._analyze_architecture_docs.
  destruct (rglob fs (truediv p "docs") "*architecture*" ++ rglob fs (truediv p "docs") "*design*");
    probe_cases; probe_solve.
Qed.

Lemma architecture_structure_issues (fs : FileSystem) (p : Path) :
  Forall (probe_issue ["structure_issue"] ["medium"; "low"])
         (ArchitectureExpert._analyze_code_structure fs p).
Proof.
  unfold ArchitectureExpert._analyze_code_structure.
  destruct (rglob fs (truediv p "src") "*.py"); probe_cases; probe_solve.
Qed.

Lemma architecture_dependency_issues (fs : FileSystem) (p : Path) :
  Forall (probe_issue ["dependency_issue"] ["medium"])
         (ArchitectureExpert._analyze_dependencies fs p).
Proof.
  unfold ArchitectureExpert._analyze_dependencies. probe_cases; probe_solve.
Qed.

(** What the four experts with probes of their own report: issues of the
    kinds they have a fix for; none is critical, and at most three are
    high. *)
Lemma probe_findings (e : expert) (fs : FileSystem) (p : Path) :
  In e [Architecture; Build; MCP; Model] ->
  Forall (probe_issue (fixed_kinds e) ["medium"; "low"; "high"])
         (hallucinations (detect e fs p))
  /\ priority_count "critical" (hallucinations (detect e fs p)) = 0%nat
  /\ (priority_count "high" (hallucinations (detect e fs p)) <= 3)%nat
  /\ (e = Architecture -> priority_count "high" (hallucinations (detect e fs p)) = 0%nat).
Proof.
  intros He.
  assert (forall kinds l1 l2,
            Forall (probe_issue kinds ["medium"; "low"]) l1 ->
            Forall (probe_issue kinds ["high"]) l2 -> (length l2 <= 3)%nat ->
            Forall (probe_issue kinds ["medium"; "low"; "high"]) (l1 ++ l2)
            /\ priority_count "critical" (l1 ++ l2) = 0%nat
            /\ (priority_count "high" (l1 ++ l2) <= 3)%nat) as Hjoin.
  { intros kinds l1 l2 H1 H2 Hlen.
    split; [|split].
    - apply Forall_app; split; eapply Forall_impl; eauto;
        intros f; apply probe_issue_weaken; simpl; tauto.
    - rewrite priority_count_app.
      rewrite (probe_count "critical" _ _ _ H1), (probe_count "critical" _ _ _ H2);
        [reflexivity| |]; simpl; intuition discriminate.
    - rewrite priority_count_app, (probe_count "high" _ _ _ H1);
        [|simpl; intuition discriminate].
      pose proof (priority_count_le_length "high" l2). lia. }
  simpl in He. destruct He as [<-|[<-|[<-|[<-|[]]]]]; simpl.
  - unfold ArchitectureExpert.detect_hallucinations.
    destruct (ArchitectureExpert._find_existing_architecture_data fs p); simpl.
    { repeat split; try constructor; lia. }
    assert (Forall (probe_issue (fixed_kinds Architecture) ["medium"; "low"])
              ((ArchitectureExpert._analyze_architecture_docs fs p
                ++ ArchitectureExpert._analyze_code_structure fs p)
               ++ ArchitectureExpert._analyze_dependencies fs p)) as Hall.
    { rewrite !Forall_app. repeat split.
      - eapply Forall_impl; [apply architecture_doc_issues|].
        intros f; apply probe_issue_weaken; simpl; tauto.
      - eapply Forall_impl; [apply architecture_structure_issues|].
        intros f; apply probe_issue_weaken; simpl; tauto.
      - eapply Forall_impl; [apply architecture_dependency_issues|].
        intros f; apply probe_issue_weaken; simpl; tauto. }
    destruct (Hjoin _ _ [] Hall) as (Hj1 & Hj2 & Hj3); [constructor|simpl; lia|].
    rewrite app_nil_r in Hj1, Hj2, Hj3.
    repeat split; try assumption.
    intros _. apply (probe_count "high" _ _ _ Hall). simpl. intuition discriminate.
  - unfold BuildExpert.detect_hallucinations.
    destruct (BuildExpert._find_existing_build_data fs p); simpl.
    { repeat split; try constructor; try lia; try discriminate. }
    destruct (build_log_issues fs p) as [Hlog Hlen].
    destruct (Hjoin (fixed_kinds Build) (BuildExpert._analyze_build_config fs p)
                (BuildExpert._analyze_build_logs fs p)) as (Hj1 & Hj2 & Hj3);
      [| |assumption|].
    + eapply Forall_impl; [apply build_config_issues|].
      intros f; apply probe_issue_weaken; simpl; tauto.
    + eapply Forall_impl; [exact Hlog|].
      intros f; apply probe_issue_weaken; simpl; tauto.
    + repeat split; try assumption; try discriminate.
  - unfold MCPExpert.detect_hallucinations.
    destruct (MCPExpert._find_existing_mcp_data fs p); simpl.
    { repeat split; try constructor; try lia; try discriminate. }
    destruct (mcp_log_issues fs p) as [Hlog Hlen].
    destruct (Hjoin (fixed_kinds MCP) (MCPExpert._analyze_mcp_config fs p)
                (MCPExpert._analyze_mcp_logs fs p)) as (Hj1 & Hj2 & Hj3);
      [| |assumption|].
    + eapply Forall_impl; [apply mcp_config_issues|].
      intros f; apply probe_issue_weaken; simpl; tauto.
    + eapply Forall_impl; [exact Hlog|].
      intros f; apply probe_issue_weaken; simpl; tauto.
    + repeat split; try assumption; try discriminate.
  - unfold ModelExpert.detect_hallucinations.
    destruct (ModelExpert._find_existing_model_data fs p); simpl.
    { repeat split; try constructor; try lia; try discriminate. }
    destruct (model_output_issues fs p) as [Hlog Hlen].
    destruct (Hjoin (fixed_kinds Model) (ModelExpert._analyze_model_config fs p)
                (ModelExpert._analyze_model_outputs fs p)) as (Hj1 & Hj2 & Hj3);
      [| |assumption|].
    + eapply Forall_impl; [apply model_config_issues|].
      intros f; apply probe_issue_weaken; simpl; tauto.
    + eapply Forall_impl; [exact Hlog|].
      intros f; apply probe_issue_weaken; simpl; tauto.
    + repeat split; try assumption; try discriminate.
Qed.

End Probes.

Section ProbeProperties.

Context `{Builtins}.

Local Open Scope Q_scope.

Lemma suggest_fixes_cons (e : expert) (issue : dict) (issues : list dict) :
  suggest_fixes e (issue :: issues)
  = first ← suggest_fixes e [issue]; more ← suggest_fixes e issues; mret (first ++ more).
Proof.
  destruct e; simpl;
    [exact (security_suggest_fixes_app [issue] issues)
    |exact (append_fixes_app _ [issue] issues) ..].
Qed.

(** When each issue of a list that is kept gets one fix, holding the issue
    and with its priority, and each other issue gets none, the fixes of the
    list are those of the issues kept, in order. *)
Lemma suggest_fixes_each (e : expert) (keep : dict -> bool) (issues : list dict) :
  Forall (fun issue =>
            if keep issue
            then exists d, suggest_fixes e [issue] = Ok [d]
                           /\ d !! "issue" = Some (VDict issue)
                           /\ d !! "priority" = issue !! "priority"
            else suggest_fixes e [issue] = Ok []) issues ->
  exists fixes,
    suggest_fixes e issues = Ok fixes
    /\ map (fun fx => fx !! "issue") fixes
       = map (fun issue => Some (VDict issue)) (List.filter keep issues)
    /\ map (fun fx => fx !! "priority") fixes
       = map (fun issue => issue !! "priority") (List.filter keep issues).
Proof.
  induction 1 as [|issue issues Hissue _ (fixes & E & Hi & Hp)].
  - exists []. repeat split. by destruct e.
  - rewrite suggest_fixes_cons, E. simpl List.filter.
    destruct (keep issue).
    + destruct Hissue as (d & -> & Hd1 & Hd2).
      exists (d :: fixes). simpl. by rewrite Hd1, Hd2, Hi, Hp.
    + rewrite Hissue. by exists fixes.
Qed.

Lemma probe_issue_fixed (e : expert) (priorities : list string) (issue : dict) :
  In e [Architecture; Build; MCP; Model] ->
  probe_issue (fixed_kinds e) priorities issue ->
  exists d, suggest_fixes e [issue] = Ok [d]
            /\ d !! "issue" = Some (VDict issue)
            /\ d !! "priority" = issue !! "priority".
Proof.
  intros He (type & file & description & priority & tool & source & -> & Ht & _).
  simpl in He. destruct He as [<-|[<-|[<-|[<-|[]]]]]; simpl in Ht;
    repeat (destruct Ht as [<-|Ht]); try contradiction;
    eexists; (split; [reflexivity|]); split; reflexivity.
Qed.

Lemma filter_all {A} (l : list A) : List.filter (fun _ => true) l = l.
Proof. induction l as [|x l IH]; simpl; by rewrite ?IH. Qed.

(** X12. The architecture, build, MCP and model experts can fix all they
    report: on the findings of its own [detect_hallucinations], the
    [suggest_fixes] of each does not raise and makes one fix per finding,
    in order, that holds the finding and has its priority. *)
Theorem probe_findings_are_fixed (e : expert) (fs : FileSystem) (project_path : Path) :
  In e [Architecture; Build; MCP; Model] ->
  exists fixes,
    suggest_fixes e (hallucinations (detect e fs project_path)) = Ok fixes
    /\ map (fun fx => fx !! "issue") fixes
       = map (fun issue => Some (VDict issue))
             (hallucinations (detect e fs project_path))
    /\ map (fun fx => fx !! "priority") fixes
       = map (fun issue => issue !! "priority")
             (hallucinations (detect e fs project_path)).
Proof.
  intros He.
  destruct (probe_findings e fs project_path He) as (Hall & _).
  destruct (suggest_fixes_each e (fun _ => true)
              (hallucinations (detect e fs project_path))) as (fixes & E & Hi & Hp).
  { eapply Forall_impl; [exact Hall|].
    intros issue Hissue. exact (probe_issue_fixed e _ issue He Hissue). }
  rewrite filter_all in Hi, Hp. by exists fixes.
Qed.

(** The confidence is that of the scorer as soon as an expert finds one of
    its artifacts. *)
Lemma detect_with_artifacts (e : expert) (fs : FileSystem) (p : Path) :
  relevant_artifacts e fs p <> [] ->
  confidence (detect e fs p)
  = BaseExpert.calculate_confidence (hallucinations (detect e fs p)).
Proof.
  destruct e; simpl; intros Hdata.
  - reflexivity.
  - unfold CodeQualityExpert.detect_hallucinations.
    by destruct (CodeQualityExpert._find_existing_tool_outputs fs p).
  - unfold ArchitectureExpert.detect_hallucinations.
    by destruct (ArchitectureExpert._find_existing_architecture_data fs p).
  - unfold BuildExpert.detect_hallucinations.
    by destruct (BuildExpert._find_existing_build_data fs p).
  - unfold MCPExpert.detect_hallucinations.
    by destruct (MCPExpert._find_existing_mcp_data fs p).
  - unfold ModelExpert.detect_hallucinations.
    by destruct (ModelExpert._find_existing_model_data fs p).
Qed.

Lemma probe_confidence_cases (e : expert) (fs : FileSystem) (p : Path) :
  In e [Architecture; Build; MCP; Model] ->
  (relevant_artifacts e fs p = [] /\ confidence (detect e fs p) = 0.3)
  \/ (relevant_artifacts e fs p <> []
      /\ 0.5 <= confidence (detect e fs p) <= 0.9
      /\ (e = Architecture ->
          confidence (detect e fs p) = 0.9 \/ confidence (detect e fs p) == 0.8)).
Proof.
  intros He.
  destruct (relevant_artifacts e fs p) as [|a l] eqn:Hdata.
  - left. split; [reflexivity|].
    rewrite (detect_without_artifacts e fs p Hdata). simpl.
    simpl in He. by destruct He as [<-|[<-|[<-|[<-|[]]]]].
  - right. split; [discriminate|].
    rewrite detect_with_artifacts by (rewrite Hdata; discriminate).
    destruct (probe_findings e fs p He) as (_ & Hcrit & Hhigh & Harch).
    destruct (hallucinations (detect e fs p)) as [|f hs].
    + split; [simpl; lra|]. intros _. by left.
    + split.
      * split; [by apply confidence_with_few_high|].
        pose proof (calculate_confidence_cons_le_base f hs). lra.
      * intros Ha. right. apply confidence_without_penalty; [by apply Harch|assumption].
Qed.

(** X13. Of what the architecture, build, MCP and model experts report no
    finding is critical and at most three are high.  So each reports the
    confidence 0.3 when it finds none of its artifacts and a confidence
    from 0.5 to 0.9 otherwise; for the architecture expert that is 0.9 or
    0.8. *)
Theorem probe_confidence (e : expert) (fs : FileSystem) (project_path : Path) :
  In e [Architecture; Build; MCP; Model] ->
  priority_count "critical" (hallucinations (detect e fs project_path)) = 0%nat
  /\ (priority_count "high" (hallucinations (detect e fs project_path)) <= 3)%nat
  /\ ((relevant_artifacts e fs project_path = []
       /\ confidence (detect e fs project_path) = 0.3)
      \/ (relevant_artifacts e fs project_path <> []
          /\ 0.5 <= confidence (detect e fs project_path) <= 0.9
          /\ (e = Architecture ->
              confidence (detect e fs project_path) = 0.9
              \/ confidence (detect e fs project_path) == 0.8))).
Proof.
  intros He.
  destruct (probe_findings e fs project_path He) as (_ & Hcrit & Hhigh & _).
  split; [exact Hcrit|]. split; [exact Hhigh|].
  by apply probe_confidence_cases.
Qed.

Lemma append_existing_filter (fs : FileSystem) (p : Path)
    (names : list string) (files : list Path) :
  append_existing fs p names files
  = files ++ List.filter (exists_ fs) (map (truediv p) names).
Proof.
  unfold append_existing. revert files.
  induction names as [|name names IH]; intros files; simpl.
  - by rewrite app_nil_r.
  - rewrite IH. destruct (exists_ fs (truediv p name)); [|reflexivity].
    by rewrite <- app_assoc.
Qed.

Lemma append_existing_twice (fs : FileSystem) (p : Path) (names more : list string) :
  append_existing fs p more (append_existing fs p names [])
  = List.filter (exists_ fs) (map (truediv p) (names ++ more)).
Proof.
  rewrite !append_existing_filter, map_app, List.filter_app. reflexivity.
Qed.

Lemma probed_artifacts (e : expert) (fs : FileSystem) (p : Path) :
  In e [Build; MCP; Model] ->
  relevant_artifacts e fs p
  = List.filter (exists_ fs) (map (truediv p) (probed_names e)).
Proof.
  intros He. simpl in He.
  destruct He as [<-|[<-|[<-|[]]]]; exact (append_existing_twice fs p _ _).
Qed.

Lemma filter_nil_iff {A} (t : A -> bool) (l : list A) :
  List.filter t l = [] <-> forall x, In x l -> t x = false.
Proof.
  induction l as [|x l IH]; simpl.
  - split; [intros _ y []|reflexivity].
  - destruct (t x) eqn:E.
    + split; [discriminate|]. intros Hall. specialize (Hall x (or_introl eq_refl)).
      congruence.
    + rewrite IH. split.
      * intros Hall y [<-|Hy]; [assumption|by apply Hall].
      * intros Hall y Hy. apply Hall. by right.
Qed.

(** X14. What the build, MCP and model experts take for their data is the
    list of the names they probe that exist below the project, each name
    taken as it is written (an asterisk stands for itself); and the
    confidence they report is 0.3 exactly when none of these names
    exists. *)
Theorem probed_names_decide (e : expert) (fs : FileSystem) (project_path : Path) :
  In e [Build; MCP; Model] ->
  relevant_artifacts e fs project_path
  = List.filter (exists_ fs) (map (truediv project_path) (probed_names e))
  /\ (confidence (detect e fs project_path) == 0.3
      <-> forall name, In name (probed_names e) ->
                       exists_ fs (truediv project_path name) = false).
Proof.
  intros He.
  pose proof (probed_artifacts e fs project_path He) as Hdata.
  split; [exact Hdata|].
  assert (In e [Architecture; Build; MCP; Model]) as He'.
  { simpl in *. tauto. }
  assert (relevant_artifacts e fs project_path = []
          <-> forall name, In name (probed_names e) ->
                           exists_ fs (truediv project_path name) = false) as <-.
  { rewrite Hdata, filter_nil_iff. split.
    - intros Hall name Hname. apply Hall. by apply in_map.
    - intros Hall q Hq. apply in_map_iff in Hq as (name & <- & Hname). by apply Hall. }
  destruct (probe_confidence_cases e fs project_path He')
    as [[Hnone ->]|(Hsome & Hrange & _)].
  - split; [by intros _|reflexivity].
  - split; [intros E; lra|contradiction].
Qed.

End ProbeProperties.

Lemma probe_findings_are_fixed_witness :
  exists fixes,
    @suggest_fixes sample_builtins Build
      (hallucinations (@detect sample_builtins Build build_project proj)) = Ok fixes
    /\ map (fun fx => fx !! "issue") fixes
       = map (fun issue => Some (VDict issue))
             (hallucinations (@detect sample_builtins Build build_project proj))
    /\ map (fun fx => fx !! "priority") fixes
       = map (fun issue => issue !! "priority")
             (hallucinations (@detect sample_builtins Build build_project proj)).
Proof.
  apply (@probe_findings_are_fixed sample_builtins Build build_project proj).
  simpl. auto.
Defined.

Lemma probe_confidence_witness :
  priority_count "critical"
    (hallucinations (@detect sample_builtins Build build_project proj)) = 0%nat
  /\ (priority_count "high"
        (hallucinations (@detect sample_builtins Build build_project proj)) <= 3)%nat
  /\ ((relevant_artifacts Build build_project proj = []
       /\ confidence (@detect sample_builtins Build build_project proj) = 0.3%Q)
      \/ (relevant_artifacts Build build_project proj <> []
          /\ (0.5 <= confidence (@detect sample_builtins Build build_project proj) <= 0.9)%Q
          /\ (Build = Architecture ->
              confidence (@detect sample_builtins Build build_project proj) = 0.9%Q
              \/ (confidence (@detect sample_builtins Build build_project proj) == 0.8)%Q))).
Proof.
  apply (@probe_confidence sample_builtins Build build_project proj).
  simpl. auto.
Defined.

Lemma probed_names_decide_witness :
  relevant_artifacts Build egg_project proj
  = List.filter (exists_ egg_project) (map (truediv proj) (probed_names Build))
  /\ ((confidence (@detect sample_builtins Build egg_project proj) == 0.3)%Q
      <-> forall name, In name (probed_names Build) ->
                       exists_ egg_project (truediv proj name) = false).
Proof.
  apply (@probed_names_decide sample_builtins Build egg_project proj).
  simpl. auto.
Defined.

(** A directory [pkg.egg-info] is no build data: the name probed is
    [*.egg-info] as it is written. *)
Example egg_info_is_not_found :
  relevant_artifacts Build egg_project proj = []
  /\ confidence (@detect sample_builtins Build egg_project proj) = 0.3%Q.
Proof. split; reflexivity. Qed.

Example build_project_findings :
  map (fun f => (f !! "type", f !! "priority"))
      (hallucinations (@detect sample_builtins Build build_project proj))
  = [(Some (VStr "build_config_issue"), Some (VStr "medium"));
     (Some (VStr "build_failure"), Some (VStr "high"))]
  /\ (confidence (@detect sample_builtins Build build_project proj) == 0.7)%Q.
Proof. split; [vm_compute; reflexivity|]. apply Qeq_bool_eq. vm_compute. reflexivity. Qed.

(** * The code quality expert *)

Section CodeQuality.

Context `{Builtins}.

Local Open Scope Q_scope.

Lemma flake8_json_issues_quality (data : list value) (issues : list dict) :
  Forall quality_issue issues ->
  Forall quality_issue (CodeQualityExpert.flake8_json_issues data issues).
Proof.
  revert issues. induction data as [|v data IH]; intros issues Hissues; [exact Hissues|].
  destruct v; simpl; try exact Hissues.
  apply IH, Forall_app. split; [exact Hissues|].
  constructor; [|constructor].
  left. repeat split; try reflexivity; eexists; reflexivity.
Qed.

Lemma flake8_text_issue_quality (parts : list string) :
  quality_issue (CodeQualityExpert.flake8_text_issue parts).
Proof. left. repeat split; try reflexivity; eexists; reflexivity. Qed.

Lemma flake8_issues_quality (fs : FileSystem) (p : Path) :
  Forall quality_issue (CodeQualityExpert._analyze_existing_flake8_outputs fs p).
Proof.
  unfold CodeQualityExpert._analyze_existing_flake8_outputs.
  apply fold_left_Forall; [|constructor].
  intros acc file Hacc.
  destruct (exists_ fs file); [|exact Hacc].
  destruct (read_text fs file) as [content|]; [|exact Hacc].
  destruct (String.eqb (suffix file) ".json").
  - destruct (json_load content) as [[]|]; try exact Hacc.
    by apply flake8_json_issues_quality.
  - apply fold_left_Forall; [|exact Hacc].
    intros acc' line Hacc'.
    destruct (py.contains ":" line); [|exact Hacc'].
    destruct (4 <=? py.len (py.split ":" (py.strip line)))%Z; [|exact Hacc'].
    apply Forall_app. split; [exact Hacc'|].
    constructor; [apply flake8_text_issue_quality|constructor].
Qed.

Lemma config_issues_quality (fs : FileSystem) (p : Path) (names : list string)
    (tool key1 key2 : string) (d : Path -> dict) :
  (forall file, quality_issue (d file)) ->
  Forall quality_issue (CodeQualityExpert.config_issues fs p names tool key1 key2 d).
Proof.
  intros Hd. unfold CodeQualityExpert.config_issues.
  apply fold_left_Forall; [|constructor].
  intros acc name Hacc. cbv zeta.
  destruct (exists_ fs (truediv p name)); [|exact Hacc].
  destruct (read_text fs (truediv p name)) as [content|]; [|exact Hacc].
  destruct (py.contains tool (py.lower content)); [|exact Hacc].
  destruct (py.contains key1 content || py.contains key2 content); [|exact Hacc].
  apply Forall_app. split; [exact Hacc|]. constructor; [apply Hd|constructor].
Qed.

Lemma ci_issues_quality (fs : FileSystem) (p : Path) :
  Forall quality_issue (CodeQualityExpert._analyze_existing_ci_logs fs p).
Proof.
  unfold CodeQualityExpert._analyze_existing_ci_logs.
  apply fold_left_Forall; [|constructor].
  intros acc ci_dir Hacc. cbv zeta.
  destruct (exists_ fs (truediv p ci_dir)); [|exact Hacc].
  apply fold_left_Forall; [|exact Hacc].
  intros acc' config_file Hacc'.
  destruct (read_text fs config_file) as [content|]; [|exact Hacc'].
  destruct (py.contains "flake8" content || py.contains "black" content
            || py.contains "mypy" content); [|exact Hacc'].
  apply Forall_app. split; [exact Hacc'|]. constructor; [|constructor].
  right. exists "ci_quality_integration". simpl. auto.
Qed.

Lemma quality_findings (fs : FileSystem) (p : Path) :
  Forall quality_issue (hallucinations (CodeQualityExpert.detect_hallucinations fs p)).
Proof.
  unfold CodeQualityExpert.detect_hallucinations.
  destruct (CodeQualityExpert._find_existing_tool_outputs fs p); [constructor|].
  cbv zeta. simpl hallucinations.
  repeat (apply Forall_app; split); try constructor.
  - apply flake8_issues_quality.
  - apply config_issues_quality. intros file. right.
    exists "formatting_config". simpl. auto.
  - apply config_issues_quality. intros file. right.
    exists "type_checking_config". simpl. auto 6.
  - apply ci_issues_quality.
Qed.

Lemma quality_issue_counts (l : list dict) :
  Forall quality_issue l ->
  priority_count "high" l = 0%nat /\ priority_count "critical" l = 0%nat.
Proof.
  induction 1 as [|f l Hf _ [IHh IHc]]; [split; reflexivity|].
  simpl. rewrite IHh, IHc. unfold py.get_eq.
  destruct Hf as [(_ & _ & _ & ->)|(type & _ & _ & ->)]; split; reflexivity.
Qed.

Lemma quality_issue_fixed (issue : dict) :
  quality_issue issue ->
  if negb (py.get_eq issue "type" "ci_quality_integration")
  then exists d, suggest_fixes CodeQuality [issue] = Ok [d]
                 /\ d !! "issue" = Some (VDict issue)
                 /\ d !! "priority" = issue !! "priority"
  else suggest_fixes CodeQuality [issue] = Ok [].
Proof.
  intros [(Ht & [code Hc] & [description Hd] & Hp)|(type & Hin & Ht & Hp)];
    unfold py.get_eq; rewrite Ht.
  - simpl. unfold CodeQualityExpert.suggest_fixes, append_fixes. simpl.
    unfold py.getitem. rewrite Ht, Hc, Hd, Hp. simpl.
    eexists. split; [reflexivity|]. split; reflexivity.
  - simpl in Hin. destruct Hin as [<-|[<-|[<-|[]]]]; simpl;
      unfold CodeQualityExpert.suggest_fixes, append_fixes; simpl;
      unfold py.getitem; rewrite Ht, ?Hp; simpl;
      try reflexivity; eexists; (split; [reflexivity|]); split; reflexivity.
Qed.

(** X15. What the code quality expert reports is an entry of a flake8 report,
    of priority medium and with a code and a description, or the note of a
    configuration, of priority low.  So its confidence is 0.5 when it finds
    no tool output, 0.9 when it finds some and reports nothing, and 0.8
    otherwise; and [suggest_fixes] on its own findings does not raise and
    makes one fix, holding the finding and with its priority, for each
    finding but those of type ci_quality_integration, which get none. *)
Theorem code_quality_findings_and_fixes (fs : FileSystem) (project_path : Path) :
  Forall quality_issue (hallucinations (detect CodeQuality fs project_path))
  /\ ((relevant_artifacts CodeQuality fs project_path = []
       /\ hallucinations (detect CodeQuality fs project_path) = []
       /\ confidence (detect CodeQuality fs project_path) = 0.5)
      \/ (relevant_artifacts CodeQuality fs project_path <> []
          /\ hallucinations (detect CodeQuality fs project_path) = []
          /\ confidence (detect CodeQuality fs project_path) = 0.9)
      \/ (relevant_artifacts CodeQuality fs project_path <> []
          /\ hallucinations (detect CodeQuality fs project_path) <> []
          /\ confidence (detect CodeQuality fs project_path) == 0.8))
  /\ exists fixes,
       suggest_fixes CodeQuality (hallucinations (detect CodeQuality fs project_path))
       = Ok fixes
       /\ map (fun fx => fx !! "issue") fixes
          = map (fun issue => Some (VDict issue))
                (List.filter
                   (fun issue => negb (py.get_eq issue "type" "ci_quality_integration"))
                   (hallucinations (detect CodeQuality fs project_path)))
       /\ map (fun fx => fx !! "priority") fixes
          = map (fun issue => issue !! "priority")
                (List.filter
                   (fun issue => negb (py.get_eq issue "type" "ci_quality_integration"))
                   (hallucinations (detect CodeQuality fs project_path))).
Proof.
  pose proof (quality_findings fs project_path) as Hall.
  change (CodeQualityExpert.detect_hallucinations fs project_path)
    with (detect CodeQuality fs project_path) in Hall.
  split; [exact Hall|]. split.
  - destruct (relevant_artifacts CodeQuality fs project_path) as [|a l] eqn:Hdata.
    + left. rewrite (detect_without_artifacts CodeQuality fs project_path Hdata).
      repeat split.
    + right.
      rewrite detect_with_artifacts by (rewrite Hdata; discriminate).
      destruct (quality_issue_counts _ Hall) as [Hh Hc].
      destruct (hallucinations (detect CodeQuality fs project_path)) as [|f hs].
      * left. repeat split. discriminate.
      * right. split; [discriminate|]. split; [discriminate|].
        by apply confidence_without_penalty.
  - apply suggest_fixes_each.
    eapply Forall_impl; [exact Hall|]. exact quality_issue_fixed.
Qed.

End CodeQuality.

(** The fixes of the findings in the project with a Black configuration and
    a workflow that runs flake8: one for the configuration, none for the
    workflow. *)
Example build_project_quality :
  map (fun f => f !! "type")
      (hallucinations (@detect sample_builtins CodeQuality build_project proj))
  = [Some (VStr "ci_quality_integration")]
  /\ @suggest_fixes sample_builtins CodeQuality
       (hallucinations (@detect sample_builtins CodeQuality build_project proj))
     = Ok [].
Proof. split; vm_compute; reflexivity. Qed.

(** * Lines of a flake8 report *)

Section Flake8Lines.










End Flake8Lines.

(** The entry made of that line. *)
Example flake8_line_issue :
  CodeQualityExpert.flake8_text_issue (py.split ":" (py.strip flake8_line))
  = list_to_map
      [("type", VStr "code_quality_issue");
       ("file", VStr "src/app.py");
       ("line", VInt 10);
       ("column", VInt 80);
       ("code", VStr "E501");
       ("description", VStr "E501 line too long: 92 > 79");
       ("priority", VStr "medium");
       ("tool", VStr "flake8");
       ("source", VStr "existing_output")].
Proof. vm_compute. reflexivity. Qed.

(** * The text reports of flake8 *)

Section Flake8Reports.

Context `{Builtins}.








End Flake8Reports.


(** The entry of the report of [flake8_project]. *)
Example flake8_project_issues :
  map (fun f => (f !! "file", f !! "line", f !! "description"))
      (@CodeQualityExpert._analyze_existing_flake8_outputs
         sample_builtins flake8_project proj)
  = [(Some (VStr "src/app.py"), Some (VInt 10),
      Some (VStr "E501 line too long: 92 > 79"))].
Proof. vm_compute. reflexivity. Qed.
